(** * AutoSQL: the natural-language-to-SQL pipeline of [main.py]

    A shallow embedding of the two functions of [main.py] that carry logic,
    [generate_sql_query] (prompt template and completion request) and
    [extract_sql_only] (line scan of the completion text), together with the
    Python [str] methods they call, and proofs of the properties stated for
    them.

    Python text is a sequence of Unicode code points: [str] is [list N].
    The [str] methods follow CPython 3.11 (Unicode 14.0.0). *)

From Stdlib Require Import List NArith ZArith Bool Ascii String Lia.
From Stdlib Require Import DecimalString.
Import ListNotations.

Set Warnings "-register-all,-notation-for-abbreviation".

(** ** Python [str] *)

Module PyStr.

Local Open Scope N_scope.

Notation codepoint := N (only parsing).
Notation str := (list N) (only parsing).

(** An ASCII literal, one code point per character. *)
Definition lit (s : string) : str :=
  map N_of_ascii (list_ascii_of_string s).

Definition str_eq_dec : forall a b : str, {a = b} + {a <> b} :=
  list_eq_dec N.eq_dec.

(** [str.isspace] on one character: the code points [str.strip()] removes. *)
Definition isspace (c : codepoint) : bool :=
  ((0x09 <=? c) && (c <=? 0x0D)) || ((0x1C <=? c) && (c <=? 0x20))
  || (c =? 0x85) || (c =? 0xA0) || (c =? 0x1680)
  || ((0x2000 <=? c) && (c <=? 0x200A))
  || (c =? 0x2028) || (c =? 0x2029) || (c =? 0x202F) || (c =? 0x205F)
  || (c =? 0x3000).

(** The line boundaries of [str.splitlines], apart from the pair CR LF. *)
Definition is_linebreak (c : codepoint) : bool :=
  ((0x0A <=? c) && (c <=? 0x0D)) || ((0x1C <=? c) && (c <=? 0x1E))
  || (c =? 0x85) || (c =? 0x2028) || (c =? 0x2029).

Fixpoint drop_while (p : codepoint -> bool) (s : str) : str :=
  match s with
  | [] => []
  | c :: r => if p c then drop_while p r else s
  end.

Definition lstrip (s : str) : str := drop_while isspace s.
Definition rstrip (s : str) : str := rev (drop_while isspace (rev s)).

(** [s.strip()] *)
Definition strip (s : str) : str := rstrip (lstrip s).

Definition mem (c : codepoint) (chars : str) : bool := existsb (N.eqb c) chars.

(** [s.rstrip(chars)] *)
Definition rstrip_chars (chars s : str) : str :=
  rev (drop_while (fun c => mem c chars) (rev s)).

(** [s.startswith(prefix)] *)
Fixpoint startswith (prefix s : str) : bool :=
  match prefix, s with
  | [], _ => true
  | _ :: _, [] => false
  | p :: prefix', c :: s' => (p =? c) && startswith prefix' s'
  end.

(** [s.endswith(suffix)] *)
Definition endswith (suffix s : str) : bool :=
  startswith (rev suffix) (rev s).

(** [sep.join(items)] *)
Fixpoint join (sep : str) (items : list str) : str :=
  match items with
  | [] => []
  | [x] => x
  | x :: rest => x ++ sep ++ join sep rest
  end.

(** [s.splitlines()]: [cur] holds the current line, reversed.  A line is
    closed at every boundary; the text after the last boundary is a line
    only when it is not empty. *)
Fixpoint splitlines_from (cur : str) (s : str) : list str :=
  match s with
  | [] => match cur with [] => [] | _ => [rev cur] end
  | c :: r =>
      if is_linebreak c then
        match r with
        | c' :: r' =>
            if (c =? 0x0D) && (c' =? 0x0A)
            then rev cur :: splitlines_from [] r'
            else rev cur :: splitlines_from [] r
        | [] => rev cur :: splitlines_from [] r
        end
      else splitlines_from (c :: cur) r
  end.

Definition splitlines (s : str) : list str := splitlines_from [] s.

(** The uppercase mapping of [str.upper]: the simple mappings as arithmetic
    runs [(first, last, step, upper of first)], and the characters whose
    uppercase form is several code points. *)
Definition upper_ranges : list (N * N * N * N) :=
  [ (0x61, 0x7A, 1, 0x41); (0xB5, 0xB5, 1, 0x39C); (0xE0, 0xF6, 1, 0xC0);
    (0xF8, 0xFE, 1, 0xD8); (0xFF, 0xFF, 1, 0x178); (0x101, 0x12F, 2, 0x100);
    (0x131, 0x131, 1, 0x49); (0x133, 0x137, 2, 0x132); (0x13A, 0x148, 2, 0x139);
    (0x14B, 0x177, 2, 0x14A); (0x17A, 0x17E, 2, 0x179); (0x17F, 0x17F, 1, 0x53);
    (0x180, 0x180, 1, 0x243); (0x183, 0x185, 2, 0x182); (0x188, 0x188, 1, 0x187);
    (0x18C, 0x18C, 1, 0x18B); (0x192, 0x192, 1, 0x191); (0x195, 0x195, 1, 0x1F6);
    (0x199, 0x199, 1, 0x198); (0x19A, 0x19A, 1, 0x23D); (0x19E, 0x19E, 1, 0x220);
    (0x1A1, 0x1A5, 2, 0x1A0); (0x1A8, 0x1A8, 1, 0x1A7); (0x1AD, 0x1AD, 1, 0x1AC);
    (0x1B0, 0x1B0, 1, 0x1AF); (0x1B4, 0x1B6, 2, 0x1B3); (0x1B9, 0x1B9, 1, 0x1B8);
    (0x1BD, 0x1BD, 1, 0x1BC); (0x1BF, 0x1BF, 1, 0x1F7); (0x1C5, 0x1C5, 1, 0x1C4);
    (0x1C6, 0x1C6, 1, 0x1C4); (0x1C8, 0x1C8, 1, 0x1C7); (0x1C9, 0x1C9, 1, 0x1C7);
    (0x1CB, 0x1CB, 1, 0x1CA); (0x1CC, 0x1CC, 1, 0x1CA); (0x1CE, 0x1DC, 2, 0x1CD);
    (0x1DD, 0x1DD, 1, 0x18E); (0x1DF, 0x1EF, 2, 0x1DE); (0x1F2, 0x1F2, 1, 0x1F1);
    (0x1F3, 0x1F3, 1, 0x1F1); (0x1F5, 0x1F5, 1, 0x1F4); (0x1F9, 0x21F, 2, 0x1F8);
    (0x223, 0x233, 2, 0x222); (0x23C, 0x23C, 1, 0x23B); (0x23F, 0x240, 1, 0x2C7E);
    (0x242, 0x242, 1, 0x241); (0x247, 0x24F, 2, 0x246); (0x250, 0x250, 1, 0x2C6F);
    (0x251, 0x251, 1, 0x2C6D); (0x252, 0x252, 1, 0x2C70); (0x253, 0x253, 1, 0x181);
    (0x254, 0x254, 1, 0x186); (0x256, 0x257, 1, 0x189); (0x259, 0x259, 1, 0x18F);
    (0x25B, 0x25B, 1, 0x190); (0x25C, 0x25C, 1, 0xA7AB); (0x260, 0x260, 1, 0x193);
    (0x261, 0x261, 1, 0xA7AC); (0x263, 0x263, 1, 0x194); (0x265, 0x265, 1, 0xA78D);
    (0x266, 0x266, 1, 0xA7AA); (0x268, 0x268, 1, 0x197); (0x269, 0x269, 1, 0x196);
    (0x26A, 0x26A, 1, 0xA7AE); (0x26B, 0x26B, 1, 0x2C62); (0x26C, 0x26C, 1, 0xA7AD);
    (0x26F, 0x26F, 1, 0x19C); (0x271, 0x271, 1, 0x2C6E); (0x272, 0x272, 1, 0x19D);
    (0x275, 0x275, 1, 0x19F); (0x27D, 0x27D, 1, 0x2C64); (0x280, 0x280, 1, 0x1A6);
    (0x282, 0x282, 1, 0xA7C5); (0x283, 0x283, 1, 0x1A9); (0x287, 0x287, 1, 0xA7B1);
    (0x288, 0x288, 1, 0x1AE); (0x289, 0x289, 1, 0x244); (0x28A, 0x28B, 1, 0x1B1);
    (0x28C, 0x28C, 1, 0x245); (0x292, 0x292, 1, 0x1B7); (0x29D, 0x29D, 1, 0xA7B2);
    (0x29E, 0x29E, 1, 0xA7B0); (0x345, 0x345, 1, 0x399); (0x371, 0x373, 2, 0x370);
    (0x377, 0x377, 1, 0x376); (0x37B, 0x37D, 1, 0x3FD); (0x3AC, 0x3AC, 1, 0x386);
    (0x3AD, 0x3AF, 1, 0x388); (0x3B1, 0x3C1, 1, 0x391); (0x3C2, 0x3C2, 1, 0x3A3);
    (0x3C3, 0x3CB, 1, 0x3A3); (0x3CC, 0x3CC, 1, 0x38C); (0x3CD, 0x3CE, 1, 0x38E);
    (0x3D0, 0x3D0, 1, 0x392); (0x3D1, 0x3D1, 1, 0x398); (0x3D5, 0x3D5, 1, 0x3A6);
    (0x3D6, 0x3D6, 1, 0x3A0); (0x3D7, 0x3D7, 1, 0x3CF); (0x3D9, 0x3EF, 2, 0x3D8);
    (0x3F0, 0x3F0, 1, 0x39A); (0x3F1, 0x3F1, 1, 0x3A1); (0x3F2, 0x3F2, 1, 0x3F9);
    (0x3F3, 0x3F3, 1, 0x37F); (0x3F5, 0x3F5, 1, 0x395); (0x3F8, 0x3F8, 1, 0x3F7);
    (0x3FB, 0x3FB, 1, 0x3FA); (0x430, 0x44F, 1, 0x410); (0x450, 0x45F, 1, 0x400);
    (0x461, 0x481, 2, 0x460); (0x48B, 0x4BF, 2, 0x48A); (0x4C2, 0x4CE, 2, 0x4C1);
    (0x4CF, 0x4CF, 1, 0x4C0); (0x4D1, 0x52F, 2, 0x4D0); (0x561, 0x586, 1, 0x531);
    (0x10D0, 0x10FA, 1, 0x1C90); (0x10FD, 0x10FF, 1, 0x1CBD); (0x13F8, 0x13FD, 1, 0x13F0);
    (0x1C80, 0x1C80, 1, 0x412); (0x1C81, 0x1C81, 1, 0x414); (0x1C82, 0x1C82, 1, 0x41E);
    (0x1C83, 0x1C84, 1, 0x421); (0x1C85, 0x1C85, 1, 0x422); (0x1C86, 0x1C86, 1, 0x42A);
    (0x1C87, 0x1C87, 1, 0x462); (0x1C88, 0x1C88, 1, 0xA64A); (0x1D79, 0x1D79, 1, 0xA77D);
    (0x1D7D, 0x1D7D, 1, 0x2C63); (0x1D8E, 0x1D8E, 1, 0xA7C6); (0x1E01, 0x1E95, 2, 0x1E00);
    (0x1E9B, 0x1E9B, 1, 0x1E60); (0x1EA1, 0x1EFF, 2, 0x1EA0); (0x1F00, 0x1F07, 1, 0x1F08);
    (0x1F10, 0x1F15, 1, 0x1F18); (0x1F20, 0x1F27, 1, 0x1F28); (0x1F30, 0x1F37, 1, 0x1F38);
    (0x1F40, 0x1F45, 1, 0x1F48); (0x1F51, 0x1F57, 2, 0x1F59); (0x1F60, 0x1F67, 1, 0x1F68);
    (0x1F70, 0x1F71, 1, 0x1FBA); (0x1F72, 0x1F75, 1, 0x1FC8); (0x1F76, 0x1F77, 1, 0x1FDA);
    (0x1F78, 0x1F79, 1, 0x1FF8); (0x1F7A, 0x1F7B, 1, 0x1FEA); (0x1F7C, 0x1F7D, 1, 0x1FFA);
    (0x1FB0, 0x1FB1, 1, 0x1FB8); (0x1FBE, 0x1FBE, 1, 0x399); (0x1FD0, 0x1FD1, 1, 0x1FD8);
    (0x1FE0, 0x1FE1, 1, 0x1FE8); (0x1FE5, 0x1FE5, 1, 0x1FEC); (0x214E, 0x214E, 1, 0x2132);
    (0x2170, 0x217F, 1, 0x2160); (0x2184, 0x2184, 1, 0x2183); (0x24D0, 0x24E9, 1, 0x24B6);
    (0x2C30, 0x2C5F, 1, 0x2C00); (0x2C61, 0x2C61, 1, 0x2C60); (0x2C65, 0x2C65, 1, 0x23A);
    (0x2C66, 0x2C66, 1, 0x23E); (0x2C68, 0x2C6C, 2, 0x2C67); (0x2C73, 0x2C73, 1, 0x2C72);
    (0x2C76, 0x2C76, 1, 0x2C75); (0x2C81, 0x2CE3, 2, 0x2C80); (0x2CEC, 0x2CEE, 2, 0x2CEB);
    (0x2CF3, 0x2CF3, 1, 0x2CF2); (0x2D00, 0x2D25, 1, 0x10A0); (0x2D27, 0x2D27, 1, 0x10C7);
    (0x2D2D, 0x2D2D, 1, 0x10CD); (0xA641, 0xA66D, 2, 0xA640); (0xA681, 0xA69B, 2, 0xA680);
    (0xA723, 0xA72F, 2, 0xA722); (0xA733, 0xA76F, 2, 0xA732); (0xA77A, 0xA77C, 2, 0xA779);
    (0xA77F, 0xA787, 2, 0xA77E); (0xA78C, 0xA78C, 1, 0xA78B); (0xA791, 0xA793, 2, 0xA790);
    (0xA794, 0xA794, 1, 0xA7C4); (0xA797, 0xA7A9, 2, 0xA796); (0xA7B5, 0xA7C3, 2, 0xA7B4);
    (0xA7C8, 0xA7CA, 2, 0xA7C7); (0xA7D1, 0xA7D1, 1, 0xA7D0); (0xA7D7, 0xA7D9, 2, 0xA7D6);
    (0xA7F6, 0xA7F6, 1, 0xA7F5); (0xAB53, 0xAB53, 1, 0xA7B3); (0xAB70, 0xABBF, 1, 0x13A0);
    (0xFF41, 0xFF5A, 1, 0xFF21); (0x10428, 0x1044F, 1, 0x10400); (0x104D8, 0x104FB, 1, 0x104B0);
    (0x10597, 0x105BB, 2, 0x10570); (0x10598, 0x105A0, 2, 0x10571); (0x105A4, 0x105B0, 2, 0x1057D);
    (0x105B4, 0x105B8, 2, 0x1058D); (0x105BC, 0x105BC, 1, 0x10595); (0x10CC0, 0x10CF2, 1, 0x10C80);
    (0x118C0, 0x118DF, 1, 0x118A0); (0x16E60, 0x16E7F, 1, 0x16E40); (0x1E922, 0x1E943, 1, 0x1E900) ].

Definition upper_special : list (N * list N) :=
  [ (0xDF, [0x53; 0x53]); (0x149, [0x2BC; 0x4E]); (0x1F0, [0x4A; 0x30C]);
    (0x390, [0x399; 0x308; 0x301]); (0x3B0, [0x3A5; 0x308; 0x301]); (0x587, [0x535; 0x552]);
    (0x1E96, [0x48; 0x331]); (0x1E97, [0x54; 0x308]); (0x1E98, [0x57; 0x30A]);
    (0x1E99, [0x59; 0x30A]); (0x1E9A, [0x41; 0x2BE]); (0x1F50, [0x3A5; 0x313]);
    (0x1F52, [0x3A5; 0x313; 0x300]); (0x1F54, [0x3A5; 0x313; 0x301]); (0x1F56, [0x3A5; 0x313; 0x342]);
    (0x1F80, [0x1F08; 0x399]); (0x1F81, [0x1F09; 0x399]); (0x1F82, [0x1F0A; 0x399]);
    (0x1F83, [0x1F0B; 0x399]); (0x1F84, [0x1F0C; 0x399]); (0x1F85, [0x1F0D; 0x399]);
    (0x1F86, [0x1F0E; 0x399]); (0x1F87, [0x1F0F; 0x399]); (0x1F88, [0x1F08; 0x399]);
    (0x1F89, [0x1F09; 0x399]); (0x1F8A, [0x1F0A; 0x399]); (0x1F8B, [0x1F0B; 0x399]);
    (0x1F8C, [0x1F0C; 0x399]); (0x1F8D, [0x1F0D; 0x399]); (0x1F8E, [0x1F0E; 0x399]);
    (0x1F8F, [0x1F0F; 0x399]); (0x1F90, [0x1F28; 0x399]); (0x1F91, [0x1F29; 0x399]);
    (0x1F92, [0x1F2A; 0x399]); (0x1F93, [0x1F2B; 0x399]); (0x1F94, [0x1F2C; 0x399]);
    (0x1F95, [0x1F2D; 0x399]); (0x1F96, [0x1F2E; 0x399]); (0x1F97, [0x1F2F; 0x399]);
    (0x1F98, [0x1F28; 0x399]); (0x1F99, [0x1F29; 0x399]); (0x1F9A, [0x1F2A; 0x399]);
    (0x1F9B, [0x1F2B; 0x399]); (0x1F9C, [0x1F2C; 0x399]); (0x1F9D, [0x1F2D; 0x399]);
    (0x1F9E, [0x1F2E; 0x399]); (0x1F9F, [0x1F2F; 0x399]); (0x1FA0, [0x1F68; 0x399]);
    (0x1FA1, [0x1F69; 0x399]); (0x1FA2, [0x1F6A; 0x399]); (0x1FA3, [0x1F6B; 0x399]);
    (0x1FA4, [0x1F6C; 0x399]); (0x1FA5, [0x1F6D; 0x399]); (0x1FA6, [0x1F6E; 0x399]);
    (0x1FA7, [0x1F6F; 0x399]); (0x1FA8, [0x1F68; 0x399]); (0x1FA9, [0x1F69; 0x399]);
    (0x1FAA, [0x1F6A; 0x399]); (0x1FAB, [0x1F6B; 0x399]); (0x1FAC, [0x1F6C; 0x399]);
    (0x1FAD, [0x1F6D; 0x399]); (0x1FAE, [0x1F6E; 0x399]); (0x1FAF, [0x1F6F; 0x399]);
    (0x1FB2, [0x1FBA; 0x399]); (0x1FB3, [0x391; 0x399]); (0x1FB4, [0x386; 0x399]);
    (0x1FB6, [0x391; 0x342]); (0x1FB7, [0x391; 0x342; 0x399]); (0x1FBC, [0x391; 0x399]);
    (0x1FC2, [0x1FCA; 0x399]); (0x1FC3, [0x397; 0x399]); (0x1FC4, [0x389; 0x399]);
    (0x1FC6, [0x397; 0x342]); (0x1FC7, [0x397; 0x342; 0x399]); (0x1FCC, [0x397; 0x399]);
    (0x1FD2, [0x399; 0x308; 0x300]); (0x1FD3, [0x399; 0x308; 0x301]); (0x1FD6, [0x399; 0x342]);
    (0x1FD7, [0x399; 0x308; 0x342]); (0x1FE2, [0x3A5; 0x308; 0x300]); (0x1FE3, [0x3A5; 0x308; 0x301]);
    (0x1FE4, [0x3A1; 0x313]); (0x1FE6, [0x3A5; 0x342]); (0x1FE7, [0x3A5; 0x308; 0x342]);
    (0x1FF2, [0x1FFA; 0x399]); (0x1FF3, [0x3A9; 0x399]); (0x1FF4, [0x38F; 0x399]);
    (0x1FF6, [0x3A9; 0x342]); (0x1FF7, [0x3A9; 0x342; 0x399]); (0x1FFC, [0x3A9; 0x399]);
    (0xFB00, [0x46; 0x46]); (0xFB01, [0x46; 0x49]); (0xFB02, [0x46; 0x4C]);
    (0xFB03, [0x46; 0x46; 0x49]); (0xFB04, [0x46; 0x46; 0x4C]); (0xFB05, [0x53; 0x54]);
    (0xFB06, [0x53; 0x54]); (0xFB13, [0x544; 0x546]); (0xFB14, [0x544; 0x535]);
    (0xFB15, [0x544; 0x53B]); (0xFB16, [0x54E; 0x546]); (0xFB17, [0x544; 0x53D]) ].

Fixpoint assoc_special (c : codepoint) (t : list (N * list N)) : option (list N) :=
  match t with
  | [] => None
  | (k, u) :: t' => if k =? c then Some u else assoc_special c t'
  end.

Fixpoint assoc_range (c : codepoint) (t : list (N * N * N * N)) : option N :=
  match t with
  | [] => None
  | (lo, hi, step, u) :: t' =>
      if (lo <=? c) && (c <=? hi) && ((c - lo) mod step =? 0)
      then Some (u + (c - lo))
      else assoc_range c t'
  end.

Definition upper_char (c : codepoint) : str :=
  match assoc_special c upper_special with
  | Some u => u
  | None =>
      match assoc_range c upper_ranges with
      | Some u => [u]
      | None => [c]
      end
  end.

(** [s.upper()]: character by character, with no context rule. *)
Definition upper (s : str) : str := flat_map upper_char s.

End PyStr.

Import PyStr.

(** ** The program *)

(** *** Prompt construction, [generate_sql_query] lines 88 to 121 *)

(** The f-string of [generate_sql_query], cut at its two fields:
    the text before [{columns}], the text between [{columns}] and
    [{question}], and the text after [{question}]. *)
Definition TEMPLATE_HEAD : str := lit "
You are an expert SQL assistant. Convert user questions into accurate, executable SQL queries using the given table schema.

### Table schema:
Table: user_data
Columns:
".

Definition TEMPLATE_EXAMPLES : str := lit "

### Examples:
-- Example 1:
Question: What is the average salary of employees older than 30?
SQL: SELECT AVG(salary) FROM user_data WHERE age > 30;

-- Example 2:
Question: List all distinct departments sorted by name.
SQL: SELECT DISTINCT department FROM user_data ORDER BY department;

-- Example 3:
Question: How many employees are in the IT department and earn more than 70000?
SQL: SELECT COUNT(*) FROM user_data WHERE department = 'IT' AND salary > 70000;

-- Example 4:
Question: Which employees joined in the last 2 years?
SQL: SELECT * FROM user_data WHERE join_date >= DATE('now', '-2 years');

-- Example 5:
Question: Show the top 5 highest paid employees.
SQL: SELECT * FROM user_data ORDER BY salary DESC LIMIT 5;

-- Now your turn:

Question: ".

Definition TEMPLATE_CUE : str := lit "
SQL:
".

(** [generate_sql_query], lines 88 to 121: the f-string with its two fields
    filled in, then [.strip()]. *)
Definition build_prompt (columns question : str) : str :=
  strip (TEMPLATE_HEAD ++ columns ++ TEMPLATE_EXAMPLES ++ question ++ TEMPLATE_CUE).

(** Line 210, the only caller's argument: [columns = ", ".join(df.columns)]. *)
Definition COLUMN_SEP : str := lit ", ".

Definition render_columns (column_names : list str) : str :=
  join COLUMN_SEP column_names.

(** *** The completion request, [generate_sql_query] lines 123 to 132 *)

Definition OLLAMA_API_URL : str := lit "http://localhost:11434/api/generate".
Definition MODEL_NAME : str := lit "llama3.2:latest".

(** The arguments of [requests.post]: the URL and the [json=] body. *)
Record request : Type := mk_request {
  req_url : str;
  req_model : str;
  req_prompt : str;
  req_stream : bool
}.

(** A decoded JSON value, as [response.json()] returns it.  A [dict] is the
    list of its items; a key occurs once. *)
Inductive pyobj : Type :=
| PyNone
| PyBool (b : bool)
| PyInt (z : Z)
| PyFloat (digits : str)
| PyStr (s : str)
| PyList (elems : list pyobj)
| PyDict (items : list (str * pyobj)).

(** Exceptions.  [BaseOnly] stands for the classes that derive from
    [BaseException] and not from [Exception] ([KeyboardInterrupt],
    [SystemExit]); every other class derives from [Exception]. *)
Inductive exn_class : Type :=
| ConnectionError | Timeout | HTTPError | JSONDecodeError
| KeyError | TypeError | AttributeError | OtherException
| BaseOnly.

(** [exn_str e] is [str(e)], what [f"{e}"] renders. *)
Record exn : Type := mk_exn {
  exn_cls : exn_class;
  exn_str : str
}.

Definition is_Exception (e : exn) : bool :=
  match exn_cls e with
  | BaseOnly => false
  | _ => true
  end.

(** The result of a step that may raise. *)
Definition result (A : Type) : Type := (exn + A)%type.

(** A [requests.Response], given by what the two methods the code calls on
    it do: [raise_for_status()] returns or raises, [json()] returns the
    decoded body or raises. *)
Record response : Type := mk_response {
  raise_for_status : result unit;
  json : result pyobj
}.

Definition type_name (o : pyobj) : str :=
  match o with
  | PyNone => lit "NoneType"
  | PyBool _ => lit "bool"
  | PyInt _ => lit "int"
  | PyFloat _ => lit "float"
  | PyStr _ => lit "str"
  | PyList _ => lit "list"
  | PyDict _ => lit "dict"
  end.

Fixpoint dict_get (key : str) (items : list (str * pyobj)) : option pyobj :=
  match items with
  | [] => None
  | (k, v) :: items' =>
      if str_eq_dec k key then Some v else dict_get key items'
  end.

(** [o["response"]]: a [dict] is looked up and a missing key raises
    [KeyError], whose [str] is the [repr] of the key; no other JSON value
    accepts a string subscript. *)
Definition getitem_response (o : pyobj) : result pyobj :=
  match o with
  | PyDict items =>
      match dict_get (lit "response") items with
      | Some v => inr v
      | None => inl (mk_exn KeyError (lit "'response'"))
      end
  | PyList _ =>
      inl (mk_exn TypeError (lit "list indices must be integers or slices, not str"))
  | PyStr _ =>
      inl (mk_exn TypeError (lit "string indices must be integers, not 'str'"))
  | _ =>
      inl (mk_exn TypeError (lit "'" ++ type_name o ++ lit "' object is not subscriptable"))
  end.

(** [result.strip()]: only a [str] has the method. *)
Definition call_strip (o : pyobj) : result str :=
  match o with
  | PyStr s => inr (strip s)
  | _ =>
      inl (mk_exn AttributeError
             (lit "'" ++ type_name o ++ lit "' object has no attribute 'strip'"))
  end.

(** [f"❌ Error: {e}"]: U+274C, then the text, then [str(e)]. *)
Definition ERROR_MARKER : str := 0x274C%N :: lit " Error: ".

(** Code that acts on the world [W] (the network and the service behind
    it) and returns or raises. *)
Definition M (W A : Type) : Type := W -> result A * W.

Definition ret {W A : Type} (a : A) : M W A := fun w => (inr a, w).

Definition bind {W A B : Type} (m : M W A) (k : A -> M W B) : M W B :=
  fun w =>
    match m w with
    | (inl e, w') => (inl e, w')
    | (inr a, w') => k a w'
    end.

(** A step that does not touch the world. *)
Definition lift {W A : Type} (r : result A) : M W A := fun w => (r, w).

(** [try: body  except Exception as e: handler e] *)
Definition try_except {W A : Type} (body : M W A) (handler : exn -> M W A)
  : M W A :=
  fun w =>
    match body w with
    | (inl e, w') => if is_Exception e then handler e w' else (inl e, w')
    | (inr a, w') => (inr a, w')
    end.

Notation "x <- m ;; k" := (bind m (fun x => k))
  (at level 61, m at next level, right associativity).

Section CompletionClient.

Variable W : Type.

(** [requests.post(url, json=...)]. *)
Variable post : request -> M W response.

(** The body of the [try] block, lines 124 to 130. *)
Definition request_completion (prompt : str) : M W str :=
  response <- post (mk_request OLLAMA_API_URL MODEL_NAME prompt false) ;;
  _ <- lift (raise_for_status response) ;;
  body <- lift (json response) ;;
  result <- lift (getitem_response body) ;;
  text <- lift (call_strip result) ;;
  ret text.

Definition generate_sql_query (columns question : str) : M W str :=
  let prompt := build_prompt columns question in
  try_except (request_completion prompt)
             (fun e => ret (ERROR_MARKER ++ exn_str e)).

End CompletionClient.

(** A world that records the requests sent to it: the log is the state, and
    the service answers from the request and everything it has seen. *)
Definition logging_post (service : request -> list request -> result response)
  : request -> M (list request) response :=
  fun r log => (service r log, log ++ [r]).

(** *** [extract_sql_only], lines 134 to 145 *)

Definition SELECT : str := lit "SELECT".
Definition WITH : str := lit "WITH".
Definition SEMICOLON : str := lit ";".

(** The test of line 138. *)
Definition is_trigger (line : str) : bool :=
  startswith SELECT (upper (strip line)) || startswith WITH (upper (strip line)).

(** The [for] loop, with its two variables [capture] and [sql_lines] as
    arguments; [break] returns without looking at the remaining lines. *)
Fixpoint scan (capture : bool) (sql_lines : list str) (lines : list str)
  : list str :=
  match lines with
  | [] => sql_lines
  | line :: rest =>
      let capture := if is_trigger line then true else capture in
      if capture then
        if endswith SEMICOLON (strip line)
        then sql_lines ++ [rstrip_chars SEMICOLON (strip line)]
        else scan capture (sql_lines ++ [strip line]) rest
      else scan capture sql_lines rest
  end.

Definition extract_sql_only (text : str) : str :=
  join (lit " ") (scan false [] (splitlines text)).

(** ** Vocabulary of the statements *)

(** [contains sub s]: [sub in s]. *)
Fixpoint contains (sub s : str) : bool :=
  startswith sub s
  || match s with
     | [] => false
     | _ :: r => contains sub r
     end.

(** The number of positions of [s] at which [sub] occurs. *)
Fixpoint occurrences (sub s : str) : nat :=
  (if startswith sub s then 1 else 0)
  + match s with
    | [] => 0
    | _ :: r => occurrences sub r
    end.

(** The items of a rendered column list: [s.split(", ")], with [cur] the
    current item, reversed. *)
Fixpoint split_items_from (cur : str) (s : str) : list str :=
  match s with
  | [] => [rev cur]
  | c :: r =>
      match r with
      | c' :: r' =>
          if (c =? 0x2C)%N && (c' =? 0x20)%N
          then rev cur :: split_items_from [] r'
          else split_items_from (c :: cur) r
      | [] => split_items_from (c :: cur) r
      end
  end.

Definition split_items (s : str) : list str := split_items_from [] s.

(** No line of the list triggers the capture. *)
Definition no_trigger (lines : list str) : Prop :=
  Forall (fun l => is_trigger l = false) lines.

(** No trimmed line of the list ends with a semicolon. *)
Definition no_terminator (lines : list str) : Prop :=
  Forall (fun l => endswith SEMICOLON (strip l) = false) lines.

(** The text has no line boundary: it is a single line. *)
Definition single_line (s : str) : Prop :=
  forallb (fun c => negb (is_linebreak c)) s = true.

(** A service that refuses every connection. *)
Definition refusing_post : request -> M unit response :=
  fun _ w => (inl (mk_exn ConnectionError (lit "Connection refused")), w).

(** *** The question-to-SQL step of the page, lines 215 and 216 *)

(** [full_response = generate_sql_query(columns, question)] followed by
    [sql = extract_sql_only(full_response)]. *)
Definition generate_and_extract (W : Type) (post : request -> M W response)
           (columns question : str) : M W str :=
  full_response <- generate_sql_query W post columns question ;;
  ret (extract_sql_only full_response).

(** *** The credential functions, lines 64 to 85 *)

Definition USER_FILE : str := lit "users.json".

(** **** [password.encode()]: UTF-8, strict *)

Definition is_surrogate (c : codepoint) : bool :=
  (0xD800 <=? c)%N && (c <=? 0xDFFF)%N.

(** The bytes of one code point that is not a surrogate. *)
Definition utf8_encode_char (c : codepoint) : list N :=
  (if c <? 0x80 then [c]
   else if c <? 0x800 then [0xC0 + c / 0x40; 0x80 + c mod 0x40]
   else if c <? 0x10000 then
     [0xE0 + c / 0x1000; 0x80 + (c / 0x40) mod 0x40; 0x80 + c mod 0x40]
   else
     [0xF0 + c / 0x40000; 0x80 + (c / 0x1000) mod 0x40;
      0x80 + (c / 0x40) mod 0x40; 0x80 + c mod 0x40])%N.

Definition HEX_DIGITS : str := lit "0123456789abcdef".

Definition hex_digit (v : N) : N := nth (N.to_nat v) HEX_DIGITS 0x30%N.

(** The digits of [str(n)]. *)
Definition decimal (n : nat) : str :=
  lit (NilEmpty.string_of_uint (Nat.to_uint n)).

(** The length of the run of surrogates at the head of [s]. *)
Fixpoint surrogate_run (s : str) : nat :=
  match s with
  | [] => 0
  | c :: r => if is_surrogate c then S (surrogate_run r) else 0
  end.

(** [UnicodeEncodeError], a subclass of [Exception], with the text CPython
    gives it: one character is shown escaped, a run by its two ends. *)
Definition unicode_encode_error (pos : nat) (c : codepoint) (run : nat) : exn :=
  mk_exn OtherException
    (if Nat.eqb run 1 then
       lit "'utf-8' codec can't encode character '\u"
       ++ map (fun k => hex_digit ((c / 16 ^ k) mod 16)%N) [3; 2; 1; 0]%N
       ++ lit "' in position " ++ decimal pos
       ++ lit ": surrogates not allowed"
     else
       lit "'utf-8' codec can't encode characters in position "
       ++ decimal pos ++ lit "-" ++ decimal (pos + run - 1)
       ++ lit ": surrogates not allowed").

Fixpoint utf8_encode_from (pos : nat) (s : str) : result (list N) :=
  match s with
  | [] => inr []
  | c :: r =>
      if is_surrogate c then inl (unicode_encode_error pos c (surrogate_run s))
      else
        match utf8_encode_from (S pos) r with
        | inl e => inl e
        | inr bytes => inr (utf8_encode_char c ++ bytes)
        end
  end.

Definition utf8_encode (s : str) : result (list N) := utf8_encode_from 0 s.

(** **** [hashlib.sha256(...).hexdigest()], FIPS 180-4 *)

Module SHA256.

Local Open Scope N_scope.

Definition w32 (x : N) : N := x mod 0x100000000.
Definition add32 (a b : N) : N := w32 (a + b).
Definition rotr (n x : N) : N :=
  N.lor (N.shiftr x n) (w32 (N.shiftl x (32 - n))).
Definition not32 (x : N) : N := N.lxor x 0xFFFFFFFF.

Definition Ch (x y z : N) : N := N.lxor (N.land x y) (N.land (not32 x) z).
Definition Maj (x y z : N) : N :=
  N.lxor (N.land x y) (N.lxor (N.land x z) (N.land y z)).
Definition Sigma0 (x : N) : N := N.lxor (rotr 2 x) (N.lxor (rotr 13 x) (rotr 22 x)).
Definition Sigma1 (x : N) : N := N.lxor (rotr 6 x) (N.lxor (rotr 11 x) (rotr 25 x)).
Definition sigma0 (x : N) : N := N.lxor (rotr 7 x) (N.lxor (rotr 18 x) (N.shiftr x 3)).
Definition sigma1 (x : N) : N := N.lxor (rotr 17 x) (N.lxor (rotr 19 x) (N.shiftr x 10)).

Definition K : list N :=
  [ 0x428A2F98; 0x71374491; 0xB5C0FBCF; 0xE9B5DBA5;
    0x3956C25B; 0x59F111F1; 0x923F82A4; 0xAB1C5ED5;
    0xD807AA98; 0x12835B01; 0x243185BE; 0x550C7DC3;
    0x72BE5D74; 0x80DEB1FE; 0x9BDC06A7; 0xC19BF174;
    0xE49B69C1; 0xEFBE4786; 0x0FC19DC6; 0x240CA1CC;
    0x2DE92C6F; 0x4A7484AA; 0x5CB0A9DC; 0x76F988DA;
    0x983E5152; 0xA831C66D; 0xB00327C8; 0xBF597FC7;
    0xC6E00BF3; 0xD5A79147; 0x06CA6351; 0x14292967;
    0x27B70A85; 0x2E1B2138; 0x4D2C6DFC; 0x53380D13;
    0x650A7354; 0x766A0ABB; 0x81C2C92E; 0x92722C85;
    0xA2BFE8A1; 0xA81A664B; 0xC24B8B70; 0xC76C51A3;
    0xD192E819; 0xD6990624; 0xF40E3585; 0x106AA070;
    0x19A4C116; 0x1E376C08; 0x2748774C; 0x34B0BCB5;
    0x391C0CB3; 0x4ED8AA4A; 0x5B9CCA4F; 0x682E6FF3;
    0x748F82EE; 0x78A5636F; 0x84C87814; 0x8CC70208;
    0x90BEFFFA; 0xA4506CEB; 0xBEF9A3F7; 0xC67178F2 ].

Record state : Type := mk_state {
  ha : N; hb : N; hc : N; hd : N; he : N; hf : N; hg : N; hh : N
}.

Definition H0 : state :=
  mk_state 0x6A09E667 0xBB67AE85 0x3C6EF372 0xA54FF53A 0x510E527F 0x9B05688C 0x1F83D9AB 0x5BE0CD19.

(** The message, a one bit, zeros, and the bit length on eight bytes, to a
    multiple of 64 bytes. *)
Definition pad (msg : list N) : list N :=
  let len := N.of_nat (List.length msg) in
  let zeros := (64 - (len + 9) mod 64) mod 64 in
  msg ++ [0x80] ++ repeat 0 (N.to_nat zeros)
      ++ map (fun k => ((8 * len) / 256 ^ k) mod 256) [7; 6; 5; 4; 3; 2; 1; 0].

(** Big-endian words of a block. *)
Fixpoint words (bytes : list N) : list N :=
  match bytes with
  | b0 :: b1 :: b2 :: b3 :: rest =>
      (((b0 * 256 + b1) * 256 + b2) * 256 + b3) :: words rest
  | _ => []
  end.

(** The message schedule, most recent word first. *)
Fixpoint extend (n : nat) (rw : list N) : list N :=
  match n with
  | O => rw
  | S n' =>
      extend n'
        (add32 (add32 (sigma1 (nth 1 rw 0)) (nth 6 rw 0))
               (add32 (sigma0 (nth 14 rw 0)) (nth 15 rw 0)) :: rw)
  end.

Definition schedule (block : list N) : list N :=
  rev (extend 48 (rev (words block))).

Definition round (s : state) (kw : N * N) : state :=
  let t1 := add32 (add32 (add32 (hh s) (Sigma1 (he s)))
                         (add32 (Ch (he s) (hf s) (hg s)) (fst kw)))
                  (snd kw) in
  let t2 := add32 (Sigma0 (ha s)) (Maj (ha s) (hb s) (hc s)) in
  mk_state (add32 t1 t2) (ha s) (hb s) (hc s)
           (add32 (hd s) t1) (he s) (hf s) (hg s).

Definition compress (h : state) (block : list N) : state :=
  let s := fold_left round (combine K (schedule block)) h in
  mk_state (add32 (ha h) (ha s)) (add32 (hb h) (hb s))
           (add32 (hc h) (hc s)) (add32 (hd h) (hd s))
           (add32 (he h) (he s)) (add32 (hf h) (hf s))
           (add32 (hg h) (hg s)) (add32 (hh h) (hh s)).

Fixpoint blocks (n : nat) (h : state) (bytes : list N) : state :=
  match n with
  | O => h
  | S n' => blocks n' (compress h (firstn 64 bytes)) (skipn 64 bytes)
  end.

Definition digest (msg : list N) : state :=
  let padded := pad msg in
  blocks (List.length padded / 64) H0 padded.

Definition hex8 (w : N) : list N :=
  map (fun k => hex_digit ((w / 16 ^ k) mod 16)) [7; 6; 5; 4; 3; 2; 1; 0].

Definition hexdigest (msg : list N) : list N :=
  let s := digest msg in
  hex8 (ha s) ++ hex8 (hb s) ++ hex8 (hc s) ++ hex8 (hd s)
  ++ hex8 (he s) ++ hex8 (hf s) ++ hex8 (hg s) ++ hex8 (hh s).

End SHA256.

(** Line 75: [hashlib.sha256(password.encode()).hexdigest()]. *)
Definition hash_password (password : str) : result str :=
  match utf8_encode password with
  | inl e => inl e
  | inr bytes => inr (SHA256.hexdigest bytes)
  end.

(** **** The [users] dict *)

(** [users[key] = v]: a key already there keeps its place. *)
Fixpoint dict_set (key : str) (v : pyobj) (items : list (str * pyobj))
  : list (str * pyobj) :=
  match items with
  | [] => [(key, v)]
  | (k, x) :: items' =>
      if str_eq_dec k key then (k, v) :: items'
      else (k, x) :: dict_set key v items'
  end.

(** [o == s] for a string [s]: only an equal string is equal to it. *)
Definition eq_str (o : pyobj) (s : str) : bool :=
  match o with
  | PyStr t => if str_eq_dec t s then true else false
  | _ => false
  end.

(** Lines 77 and 78, on a [users] that is a dict: [and] does not evaluate
    its right operand, the hash included, when the name is not a key. *)
Definition check_password (users : list (str * pyobj)) (username password : str)
  : result bool :=
  match dict_get username users with
  | None => inr false
  | Some stored =>
      match hash_password password with
      | inl e => inl e
      | inr h => inr (eq_str stored h)
      end
  end.

(** The three things the code asks of the file system, each of which acts
    on the world and may raise: [os.path.exists(path)], reading
    ([with open(path, "r") as f: json.load(f)]) and writing
    ([with open(path, "w") as f: json.dump(obj, f)]). *)
Record file_system (W : Type) : Type := mk_file_system {
  path_exists : str -> M W bool;
  read_json : str -> M W pyobj;
  write_json : str -> pyobj -> M W unit
}.

Arguments mk_file_system {W}.
Arguments path_exists {W}.
Arguments read_json {W}.
Arguments write_json {W}.

(** Lines 64 to 68. *)
Definition load_users {W : Type} (fs : file_system W) : M W pyobj :=
  found <- path_exists fs USER_FILE ;;
  if found then read_json fs USER_FILE else ret (PyDict []).

(** Lines 70 to 72. *)
Definition save_users {W : Type} (fs : file_system W)
           (users : list (str * pyobj)) : M W unit :=
  write_json fs USER_FILE (PyDict users).

(** The dict object that [users] names, which [register_user] changes in
    place, and the world behind the file system. *)
Record session (W : Type) : Type := mk_session {
  users : list (str * pyobj);
  disk : W
}.

Arguments mk_session {W}.
Arguments users {W}.
Arguments disk {W}.

(** Lines 80 to 85: the dict is changed before [save_users] is called, so
    the change is there also when [save_users] raises. *)
Definition register_user {W : Type} (fs : file_system W)
           (username password : str) : M (session W) bool :=
  fun s =>
    match dict_get username (users s) with
    | Some _ => (inr false, s)
    | None =>
        match hash_password password with
        | inl e => (inl e, s)
        | inr h =>
            let users' := dict_set username (PyStr h) (users s) in
            match save_users fs users' (disk s) with
            | (inl e, w) => (inl e, mk_session users' w)
            | (inr _, w) => (inr true, mk_session users' w)
            end
        end
    end.

(** A file system kept in memory: a file is the JSON value it holds. *)
Definition memory_fs : file_system (list (str * pyobj)) :=
  mk_file_system
    (fun path w =>
       (inr (match dict_get path w with Some _ => true | None => false end), w))
    (fun path w =>
       match dict_get path w with
       | Some o => (inr o, w)
       | None =>
           (inl (mk_exn OtherException (lit "[Errno 2] No such file or directory")), w)
       end)
    (fun path o w => (inr tt, dict_set path o w)).

(** A file system on which nothing can be written. *)
Definition read_only_fs : file_system unit :=
  mk_file_system
    (fun _ w => (inr false, w))
    (fun _ w =>
       (inl (mk_exn OtherException (lit "[Errno 2] No such file or directory")), w))
    (fun _ _ w =>
       (inl (mk_exn OtherException (lit "[Errno 13] Permission denied")), w)).

(** A service that answers every request with status OK and the body
    [body]. *)
Definition answering_post (body : pyobj) : request -> M unit response :=
  fun _ w => (inr (mk_response (inr tt) (inr body)), w).

(** ** Tactics *)

(** Closed goals are settled by running the definitions. *)
Ltac by_run := vm_compute; reflexivity.

Ltac each_line :=
  unfold no_trigger, no_terminator;
  repeat (apply Forall_cons; [by_run|]); apply Forall_nil.

(** ** Facts about the [str] methods *)

Section StrFacts.

Lemma SEMICOLON_eq : SEMICOLON = [0x3B%N].
Proof. reflexivity. Qed.

Lemma SPACE_eq : lit " " = [0x20%N].
Proof. reflexivity. Qed.

Lemma startswith_app (p s : str) : startswith p (p ++ s) = true.
Proof.
  induction p as [|c p IH]; cbn [startswith app]; [reflexivity|].
  now rewrite N.eqb_refl, IH.
Qed.

Lemma startswith_single (c : codepoint) (s : str) :
  startswith [c] s = match s with x :: _ => N.eqb c x | [] => false end.
Proof.
  destruct s as [|x s]; cbn [startswith]; [reflexivity|].
  now rewrite andb_true_r.
Qed.

(** Whether [s] ends with the character [c] is read off its last
    character. *)
Lemma endswith_single_app (c : codepoint) (a b : str) :
  endswith [c] (a ++ b) =
  match b with [] => endswith [c] a | _ :: _ => endswith [c] b end.
Proof.
  unfold endswith. cbn [rev app]. rewrite rev_app_distr.
  destruct b as [|x b]; [reflexivity|].
  rewrite !startswith_single.
  cbn [rev]. destruct (rev b) as [|y t]; reflexivity.
Qed.

Lemma endswith_single_last (c x : codepoint) (a : str) :
  endswith [c] (a ++ [x]) = N.eqb c x.
Proof.
  rewrite endswith_single_app. unfold endswith. cbn.
  now rewrite andb_true_r.
Qed.

Lemma endswith_nil (c : codepoint) : endswith [c] [] = false.
Proof. reflexivity. Qed.

Lemma drop_while_head (p : codepoint -> bool) (s : str) c r :
  drop_while p s = c :: r -> p c = false.
Proof.
  induction s as [|x s IH]; cbn [drop_while]; [discriminate|].
  destruct (p x) eqn:E; [exact IH|].
  intros H. injection H as -> _. exact E.
Qed.

Lemma drop_while_app (p : codepoint -> bool) (a b : str) :
  drop_while p (a ++ b) =
  match drop_while p a with
  | [] => drop_while p b
  | d => d ++ b
  end.
Proof.
  induction a as [|x a IH]; cbn [drop_while app]; [reflexivity|].
  destruct (p x); [exact IH | reflexivity].
Qed.

Lemma drop_while_stop (p : codepoint -> bool) (s : str) :
  match s with [] => True | c :: _ => p c = false end ->
  drop_while p s = s.
Proof.
  destruct s as [|c s]; cbn [drop_while]; [reflexivity|].
  now intros ->.
Qed.

(** [drop_while] returns a suffix of its argument. *)
Lemma drop_while_suffix (p : codepoint -> bool) (s : str) :
  exists d, s = d ++ drop_while p s.
Proof.
  induction s as [|c s [d IH]]; cbn [drop_while].
  - now exists [].
  - destruct (p c).
    + exists (c :: d). cbn [app]. now rewrite <- IH.
    + now exists [].
Qed.

Lemma mem_semicolon (c : codepoint) : mem c SEMICOLON = N.eqb c 0x3B.
Proof. rewrite SEMICOLON_eq. cbn. now rewrite orb_false_r. Qed.

(** What [rstrip(";")] returns does not end with a semicolon. *)
Lemma rstrip_chars_semicolon_end (s : str) :
  endswith SEMICOLON (rstrip_chars SEMICOLON s) = false.
Proof.
  unfold rstrip_chars, endswith. rewrite rev_involutive.
  destruct (drop_while _ (rev s)) as [|c r] eqn:E; [reflexivity|].
  apply drop_while_head in E. rewrite mem_semicolon in E.
  rewrite SEMICOLON_eq. cbn [rev app]. rewrite startswith_single.
  now rewrite N.eqb_sym.
Qed.

(** [rstrip(";")] leaves alone a non-empty prefix that does not end with
    a semicolon. *)
Lemma rstrip_chars_app (p r : str) :
  endswith SEMICOLON p = false ->
  rstrip_chars SEMICOLON (p ++ r) = p ++ rstrip_chars SEMICOLON r.
Proof.
  intros Hp. unfold rstrip_chars. rewrite rev_app_distr, drop_while_app.
  destruct (drop_while _ (rev r)) as [|c d] eqn:E.
  - rewrite drop_while_stop.
    + cbn [rev]. now rewrite rev_involutive, app_nil_r.
    + unfold endswith in Hp. rewrite SEMICOLON_eq in Hp. cbn [rev app] in Hp.
      rewrite startswith_single in Hp.
      destruct (rev p) as [|x t]; [exact I|].
      rewrite mem_semicolon, N.eqb_sym. exact Hp.
  - now rewrite rev_app_distr, rev_involutive.
Qed.

(** [rstrip(";")] removes a whole run of trailing semicolons. *)
Lemma rstrip_chars_run (s : str) (n : nat) :
  endswith SEMICOLON s = false ->
  rstrip_chars SEMICOLON (s ++ repeat 0x3B%N n) = s.
Proof.
  intros Hs. rewrite rstrip_chars_app by exact Hs.
  assert (E : rstrip_chars SEMICOLON (repeat 0x3B%N n) = []).
  { unfold rstrip_chars. rewrite rev_repeat.
    induction n as [|n IH]; [reflexivity|].
    cbn [repeat drop_while]. rewrite mem_semicolon, N.eqb_refl. exact IH. }
  now rewrite E, app_nil_r.
Qed.

Lemma upper_app (a b : str) : upper (a ++ b) = upper a ++ upper b.
Proof. unfold upper. apply flat_map_app. Qed.

End StrFacts.

(** ** Facts about the scan loop *)

Section ScanFacts.

Lemma scan_step_capture (sql_lines : list str) (line : str) (rest : list str) :
  scan true sql_lines (line :: rest) =
  if endswith SEMICOLON (strip line)
  then sql_lines ++ [rstrip_chars SEMICOLON (strip line)]
  else scan true (sql_lines ++ [strip line]) rest.
Proof. cbn [scan]. now destruct (is_trigger line). Qed.

Lemma scan_step_trigger (capture : bool) (sql_lines : list str) (line : str)
      (rest : list str) :
  is_trigger line = true ->
  scan capture sql_lines (line :: rest) = scan true sql_lines (line :: rest).
Proof. intros H. cbn [scan]. now rewrite H. Qed.

Lemma scan_step_skip (sql_lines : list str) (line : str) (rest : list str) :
  is_trigger line = false ->
  scan false sql_lines (line :: rest) = scan false sql_lines rest.
Proof. intros H. cbn [scan]. now rewrite H. Qed.

(** The lines already collected are a prefix of the result. *)
Lemma scan_acc (capture : bool) (sql_lines lines : list str) :
  scan capture sql_lines lines = sql_lines ++ scan capture [] lines.
Proof.
  revert capture sql_lines.
  induction lines as [|line rest IH]; intros capture sql_lines.
  - cbn [scan]. now rewrite app_nil_r.
  - cbn [scan].
    destruct (if is_trigger line then true else capture).
    + destruct (endswith SEMICOLON (strip line)); [reflexivity|].
      rewrite (IH true (sql_lines ++ [strip line])), (IH true ([] ++ [strip line])).
      now rewrite app_assoc.
    + apply IH.
Qed.

Lemma scan_skip (sql_lines pre lines : list str) :
  no_trigger pre ->
  scan false sql_lines (pre ++ lines) = scan false sql_lines lines.
Proof.
  induction 1 as [|l pre Hl _ IH]; [reflexivity|].
  cbn [app]. now rewrite scan_step_skip.
Qed.

Lemma scan_run (sql_lines body lines : list str) :
  no_terminator body ->
  scan true sql_lines (body ++ lines) =
  scan true (sql_lines ++ map strip body) lines.
Proof.
  intros H. revert sql_lines.
  induction H as [|l body Hl _ IH]; intros sql_lines.
  - cbn [app map]. now rewrite app_nil_r.
  - cbn [app map]. rewrite scan_step_capture, Hl, IH.
    now rewrite <- app_assoc.
Qed.

Lemma scan_skip_all (sql_lines lines : list str) :
  no_trigger lines -> scan false sql_lines lines = sql_lines.
Proof.
  intros H. rewrite <- (app_nil_r lines). now rewrite scan_skip.
Qed.

Lemma scan_run_all (sql_lines body : list str) :
  no_terminator body ->
  scan true sql_lines body = sql_lines ++ map strip body.
Proof.
  intros H. generalize (scan_run sql_lines body [] H).
  now rewrite app_nil_r.
Qed.

Lemma scan_stop (sql_lines : list str) (line : str) (rest : list str) :
  endswith SEMICOLON (strip line) = true ->
  scan true sql_lines (line :: rest) =
  sql_lines ++ [rstrip_chars SEMICOLON (strip line)].
Proof. intros H. now rewrite scan_step_capture, H. Qed.

(** Every collected line is free of a trailing semicolon. *)
Lemma scan_no_semicolon (capture : bool) (sql_lines lines : list str) :
  Forall (fun x => endswith SEMICOLON x = false) sql_lines ->
  Forall (fun x => endswith SEMICOLON x = false) (scan capture sql_lines lines).
Proof.
  revert capture sql_lines.
  induction lines as [|line rest IH]; intros capture sql_lines Hacc.
  - exact Hacc.
  - cbn [scan].
    destruct (if is_trigger line then true else capture).
    + destruct (endswith SEMICOLON (strip line)) eqn:E.
      * apply Forall_app. split; [exact Hacc|].
        constructor; [apply rstrip_chars_semicolon_end | constructor].
      * apply IH. apply Forall_app. split; [exact Hacc|].
        constructor; [exact E | constructor].
    + now apply IH.
Qed.

Lemma join_cons (sep x : str) (rest : list str) :
  join sep (x :: rest) =
  x ++ match rest with [] => [] | _ :: _ => sep ++ join sep rest end.
Proof. destruct rest; cbn [join]; [now rewrite app_nil_r | reflexivity]. Qed.

Lemma join_no_semicolon (items : list str) :
  Forall (fun x => endswith SEMICOLON x = false) items ->
  endswith SEMICOLON (join (lit " ") items) = false.
Proof.
  rewrite SEMICOLON_eq, SPACE_eq.
  induction 1 as [|x rest Hx _ IH]; [reflexivity|].
  rewrite join_cons. destruct rest as [|y rest]; [now rewrite app_nil_r|].
  rewrite endswith_single_app. cbn [app].
  change (0x20%N :: join [0x20%N] (y :: rest))
    with ([0x20%N] ++ join [0x20%N] (y :: rest)).
  rewrite endswith_single_app.
  destruct (join [0x20%N] (y :: rest)); [reflexivity | exact IH].
Qed.

End ScanFacts.

(** ** The extractor *)

(** C9: for every input text, what [extract_sql_only] returns does not end
    with a semicolon; and when the line that ends the scan carries a run of
    trailing semicolons, [rstrip(";")] removes the whole run, as on
    ["SELECT a;;"], which gives ["SELECT a"]. *)
Theorem extract_never_ends_with_semicolon :
  (forall text : str, endswith SEMICOLON (extract_sql_only text) = false)
  /\ (forall (s : str) (n : nat),
         endswith SEMICOLON s = false ->
         rstrip_chars SEMICOLON (s ++ repeat 0x3B%N n) = s)
  /\ extract_sql_only (lit "SELECT a;;") = lit "SELECT a"
  /\ extract_sql_only (lit "SELECT a;;;;
SELECT b;") = lit "SELECT a".
Proof.
  split; [|split; [|split]].
  - intros text. unfold extract_sql_only.
    apply join_no_semicolon, scan_no_semicolon. constructor.
  - intros s n. apply rstrip_chars_run.
  - vm_compute. reflexivity.
  - vm_compute. reflexivity.
Qed.

Lemma extract_never_ends_with_semicolon_witness :
  endswith SEMICOLON (lit "SELECT a") = false
  /\ rstrip_chars SEMICOLON (lit "SELECT a" ++ repeat 0x3B%N 2) = lit "SELECT a".
Proof.
  split; [reflexivity|].
  apply (proj1 (proj2 extract_never_ends_with_semicolon) (lit "SELECT a") 2%nat).
  reflexivity.
Defined.

(** ** Lines stay lines *)

Section SingleLine.

Lemma forallb_rev' (q : codepoint -> bool) (s : str) :
  forallb q (rev s) = forallb q s.
Proof.
  induction s as [|c s IH]; [reflexivity|].
  cbn [rev forallb]. rewrite forallb_app, IH. cbn [forallb].
  now rewrite andb_true_r, andb_comm.
Qed.

Lemma forallb_drop_while (q p : codepoint -> bool) (s : str) :
  forallb q s = true -> forallb q (drop_while p s) = true.
Proof.
  destruct (drop_while_suffix p s) as [d E]. intros H.
  rewrite E, forallb_app in H. now apply andb_true_iff in H.
Qed.

Lemma single_line_strip (s : str) : single_line s -> single_line (strip s).
Proof.
  unfold single_line, strip, rstrip, lstrip. intros H.
  rewrite forallb_rev'. apply forallb_drop_while.
  rewrite forallb_rev'. now apply forallb_drop_while.
Qed.

Lemma single_line_rstrip_chars (chars s : str) :
  single_line s -> single_line (rstrip_chars chars s).
Proof.
  unfold single_line, rstrip_chars. intros H.
  rewrite forallb_rev'. apply forallb_drop_while.
  now rewrite forallb_rev'.
Qed.

(** [splitlines_from] recurses on the tail or, after CR LF, on the tail
    of the tail: the induction is on a bound of the length. *)
Lemma splitlines_from_single_line_bounded (n : nat) :
  forall s cur : str,
    (List.length s <= n)%nat -> single_line cur ->
    Forall single_line (splitlines_from cur s).
Proof.
  induction n as [|n IH]; intros s cur Hlen Hcur.
  - destruct s; [|cbn [List.length] in Hlen; lia].
    cbn [splitlines_from]. destruct cur; constructor; [|constructor].
    unfold single_line. now rewrite forallb_rev'.
  - assert (Hrev : single_line (rev cur))
      by (unfold single_line; now rewrite forallb_rev').
    assert (Hnil : single_line []) by reflexivity.
    destruct s as [|c r].
    + cbn [splitlines_from]. destruct cur; constructor; [exact Hrev | constructor].
    + cbn [List.length] in Hlen. cbn [splitlines_from].
      destruct (is_linebreak c) eqn:E.
      * destruct r as [|c' r'].
        -- constructor; [exact Hrev | apply IH; [cbn [List.length]; lia | exact Hnil]].
        -- cbn [List.length] in Hlen.
           destruct ((c =? 0x0D)%N && (c' =? 0x0A)%N);
             (constructor; [exact Hrev | apply IH; [cbn [List.length]; lia | exact Hnil]]).
      * apply IH; [lia|]. unfold single_line in *. cbn [forallb].
        now rewrite E, Hcur.
Qed.

Lemma splitlines_single_line (s : str) : Forall single_line (splitlines s).
Proof.
  apply (splitlines_from_single_line_bounded (List.length s)); [lia | reflexivity].
Qed.

Lemma scan_single_line (capture : bool) (sql_lines lines : list str) :
  Forall single_line sql_lines -> Forall single_line lines ->
  Forall single_line (scan capture sql_lines lines).
Proof.
  intros Hacc Hlines. revert capture sql_lines Hacc.
  induction Hlines as [|line rest Hline _ IH]; intros capture sql_lines Hacc.
  - exact Hacc.
  - cbn [scan].
    destruct (if is_trigger line then true else capture).
    + destruct (endswith SEMICOLON (strip line)).
      * apply Forall_app. split; [exact Hacc|].
        constructor; [|constructor].
        now apply single_line_rstrip_chars, single_line_strip.
      * apply IH. apply Forall_app. split; [exact Hacc|].
        constructor; [now apply single_line_strip | constructor].
    + now apply IH.
Qed.

Lemma join_single_line (items : list str) :
  Forall single_line items -> single_line (join (lit " ") items).
Proof.
  induction 1 as [|x rest Hx _ IH]; [reflexivity|].
  rewrite join_cons. unfold single_line in *.
  destruct rest as [|y rest]; [now rewrite app_nil_r|].
  rewrite !forallb_app, Hx, IH. reflexivity.
Qed.

(** What the extractor returns is a single line. *)
Lemma extract_single_line (text : str) : single_line (extract_sql_only text).
Proof.
  apply join_single_line, scan_single_line;
    [constructor | apply splitlines_single_line].
Qed.

End SingleLine.




(** C2: when no trimmed line from the trigger line on ends with a semicolon,
    every line from the trigger line to the end of the text is trimmed and
    collected, and the result is these lines joined by single spaces, in
    their order, as one line; the two-line and the three-line statement are
    instances. *)
Theorem extract_without_terminator :
  (forall (text : str) (pre : list str) (first : str) (post : list str),
      splitlines text = pre ++ first :: post ->
      no_trigger pre ->
      is_trigger first = true ->
      no_terminator (first :: post) ->
      extract_sql_only text = join (lit " ") (map strip (first :: post))
      /\ single_line (extract_sql_only text))
  /\ extract_sql_only (lit "SELECT name
FROM user_data") = lit "SELECT name FROM user_data"
  /\ extract_sql_only (lit "SELECT name
    FROM user_data
    WHERE age > 30") = lit "SELECT name FROM user_data WHERE age > 30".
Proof.
  split; [|split; vm_compute; reflexivity].
  intros text pre first post Hlines Hpre Hfirst Hbody.
  split; [|apply extract_single_line].
  unfold extract_sql_only. rewrite Hlines, scan_skip by exact Hpre.
  rewrite scan_step_trigger by exact Hfirst.
  now rewrite scan_run_all by exact Hbody.
Qed.

Lemma extract_without_terminator_witness :
  extract_sql_only (lit "Sure, try this
SELECT name
FROM user_data") = lit "SELECT name FROM user_data".
Proof.
  apply (proj1 extract_without_terminator
           (lit "Sure, try this
SELECT name
FROM user_data")
           [lit "Sure, try this"] (lit "SELECT name") [lit "FROM user_data"]).
  - by_run.
  - each_line.
  - by_run.
  - each_line.
Defined.

(** C3: a text none of whose lines, once trimmed and uppercased, starts with
    SELECT or WITH gives the empty string; the lines before a trigger are
    skipped without being collected; the function is total, so there is no
    exception to speak of. *)
Theorem extract_no_match_is_empty :
  (forall text : str,
      no_trigger (splitlines text) -> extract_sql_only text = [])
  /\ (forall (pre lines : list str),
         no_trigger pre -> scan false [] (pre ++ lines) = scan false [] lines)
  /\ extract_sql_only (lit "I cannot help with that.") = [].
Proof.
  split; [|split].
  - intros text H. unfold extract_sql_only.
    now rewrite scan_skip_all by exact H.
  - intros pre lines H. now apply scan_skip.
  - vm_compute. reflexivity.
Qed.

Lemma extract_no_match_is_empty_witness :
  extract_sql_only (lit "Sorry.
I cannot help with that.") = [].
Proof.
  apply (proj1 extract_no_match_is_empty).
  assert (E : splitlines (lit "Sorry.
I cannot help with that.") = [lit "Sorry."; lit "I cannot help with that."])
    by by_run.
  rewrite E. each_line.
Defined.

(** C7: on the three-line text
    ["Sure!\nSELECT * FROM user_data WHERE age > 30;\nHope that helps."]
    the extractor returns exactly ["SELECT * FROM user_data WHERE age > 30"]. *)
Theorem extract_round_trip :
  let text := lit "Sure!
SELECT * FROM user_data WHERE age > 30;
Hope that helps." in
  splitlines text =
    [lit "Sure!"; lit "SELECT * FROM user_data WHERE age > 30;";
     lit "Hope that helps."]
  /\ extract_sql_only text = lit "SELECT * FROM user_data WHERE age > 30".
Proof. split; vm_compute; reflexivity. Qed.

(** ** The trigger *)

Section TriggerFacts.

Lemma startswith_app_l (k a b : str) :
  startswith k a = true -> startswith k (a ++ b) = true.
Proof.
  revert a. induction k as [|c k IH]; intros a H; [reflexivity|].
  destruct a as [|x a]; [discriminate|].
  cbn [startswith app] in *. apply andb_true_iff in H as [-> H].
  now rewrite IH.
Qed.

(** The test of line 138 looks at the first characters of the trimmed
    line and at nothing after them. *)
Lemma is_trigger_prefix (line p r : str) :
  strip line = p ++ r ->
  startswith SELECT (upper p) = true \/ startswith WITH (upper p) = true ->
  is_trigger line = true.
Proof.
  intros E H. unfold is_trigger. rewrite E, upper_app.
  destruct H as [H | H]; rewrite (startswith_app_l _ _ (upper r) H);
    [reflexivity | apply orb_true_r].
Qed.

(** One turn of the loop on a triggering line [p ++ r], where the word
    [p] does not end with a semicolon: the line collected starts with [p],
    and what comes after [p] depends on [r] and on the later lines alone. *)
Lemma scan_trigger_line (capture : bool) (sql_lines : list str)
      (line p r : str) (rest : list str) :
  strip line = p ++ r ->
  is_trigger line = true ->
  endswith SEMICOLON p = false ->
  scan capture sql_lines (line :: rest) =
  sql_lines ++
    (p ++ (if endswith SEMICOLON (lit "x" ++ r)
           then rstrip_chars SEMICOLON r else r))
    :: (if endswith SEMICOLON (lit "x" ++ r)
        then [] else scan true [] rest).
Proof.
  intros E Ht Hp. rewrite scan_step_trigger, scan_step_capture by exact Ht.
  rewrite E.
  assert (Hend : endswith SEMICOLON (p ++ r) = endswith SEMICOLON (lit "x" ++ r)).
  { rewrite SEMICOLON_eq, !endswith_single_app.
    destruct r; [|reflexivity]. rewrite <- SEMICOLON_eq, Hp. reflexivity. }
  rewrite Hend. destruct (endswith SEMICOLON (lit "x" ++ r)).
  - now rewrite rstrip_chars_app.
  - rewrite scan_acc. now rewrite <- app_assoc.
Qed.

End TriggerFacts.

(** C6: a line whose trimmed form begins with lowercase [select] switches
    the capture on exactly as one that begins with [SELECT].  Both pass the
    test of line 138; one turn of the loop, in any state, collects the two
    lines with the same continuation after the keyword and goes on in the
    same way; and two texts that differ in the spelling of the keyword of
    their first triggering line alone give results that differ in that
    spelling alone. *)
Theorem lowercase_select_triggers_like_uppercase :
  (forall (l1 l2 r : str),
      strip l1 = lit "select" ++ r ->
      strip l2 = lit "SELECT" ++ r ->
      is_trigger l1 = true /\ is_trigger l2 = true
      /\ forall (capture : bool) (sql_lines rest : list str),
          exists (x : str) (tail : list str),
            scan capture sql_lines (l1 :: rest)
            = sql_lines ++ (lit "select" ++ x) :: tail
            /\ scan capture sql_lines (l2 :: rest)
               = sql_lines ++ (lit "SELECT" ++ x) :: tail)
  /\ (forall (text1 text2 : str) (pre : list str) (l1 l2 : str)
             (post : list str) (r : str),
         splitlines text1 = pre ++ l1 :: post ->
         splitlines text2 = pre ++ l2 :: post ->
         no_trigger pre ->
         strip l1 = lit "select" ++ r ->
         strip l2 = lit "SELECT" ++ r ->
         exists tail : str,
           extract_sql_only text1 = lit "select" ++ tail
           /\ extract_sql_only text2 = lit "SELECT" ++ tail)
  /\ extract_sql_only (lit "Sure!
select name from user_data;
Bye.") = lit "select name from user_data".
Proof.
  assert (Hlow : forall l r, strip l = lit "select" ++ r -> is_trigger l = true).
  { intros l r E. apply (is_trigger_prefix _ _ _ E). left. by_run. }
  assert (Hup : forall l r, strip l = lit "SELECT" ++ r -> is_trigger l = true).
  { intros l r E. apply (is_trigger_prefix _ _ _ E). left. by_run. }
  assert (Hscan : forall l1 l2 r capture sql_lines rest,
             strip l1 = lit "select" ++ r -> strip l2 = lit "SELECT" ++ r ->
             exists x tail,
               scan capture sql_lines (l1 :: rest)
               = sql_lines ++ (lit "select" ++ x) :: tail
               /\ scan capture sql_lines (l2 :: rest)
                  = sql_lines ++ (lit "SELECT" ++ x) :: tail).
  { intros l1 l2 r capture sql_lines rest E1 E2.
    eexists. eexists. split.
    - apply (scan_trigger_line capture sql_lines l1 _ r rest E1);
        [now apply (Hlow l1 r) | by_run].
    - apply (scan_trigger_line capture sql_lines l2 _ r rest E2);
        [now apply (Hup l2 r) | by_run]. }
  split; [|split].
  - intros l1 l2 r E1 E2.
    split; [now apply (Hlow l1 r)|]. split; [now apply (Hup l2 r)|].
    intros capture sql_lines rest. now apply (Hscan l1 l2 r).
  - intros text1 text2 pre l1 l2 post r H1 H2 Hpre E1 E2.
    destruct (Hscan l1 l2 r false [] post E1 E2) as (x & tail & S1 & S2).
    unfold extract_sql_only.
    rewrite H1, H2, !scan_skip by exact Hpre. rewrite S1, S2.
    cbn [app]. rewrite !join_cons.
    exists (x ++ match tail with
                 | [] => []
                 | _ :: _ => lit " " ++ join (lit " ") tail
                 end).
    now rewrite <- !app_assoc.
  - by_run.
Qed.

Lemma lowercase_select_triggers_like_uppercase_witness :
  exists tail : str,
    extract_sql_only (lit "Sure!
  select name
  from user_data;") = lit "select" ++ tail
    /\ extract_sql_only (lit "Sure!
  SELECT name
  from user_data;") = lit "SELECT" ++ tail.
Proof.
  apply (proj1 (proj2 lowercase_select_triggers_like_uppercase)
           (lit "Sure!
  select name
  from user_data;")
           (lit "Sure!
  SELECT name
  from user_data;")
           [lit "Sure!"] (lit "  select name") (lit "  SELECT name")
           [lit "  from user_data;"] (lit " name")).
  - by_run.
  - by_run.
  - each_line.
  - by_run.
  - by_run.
Defined.

(** C10: the trigger is a prefix test on the trimmed, uppercased line, not
    a keyword test.  A prose line that begins with [Without] or [Selected]
    starts the capture, so the result begins with prose; and any line whose
    trimmed form begins with the letters of [with] or [select], in any
    case, triggers, whatever follows the letters. *)
Theorem trigger_is_raw_prefix_match :
  extract_sql_only (lit "Without a doubt, here is the query:
SELECT name FROM user_data;")
  = lit "Without a doubt, here is the query: SELECT name FROM user_data"
  /\ extract_sql_only (lit "Selected rows are shown below")
     = lit "Selected rows are shown below"
  /\ (forall (line word r : str),
         strip line = word ++ r ->
         upper word = SELECT \/ upper word = WITH ->
         is_trigger line = true).
Proof.
  split; [by_run | split; [by_run|]].
  intros line word r E [H | H]; apply (is_trigger_prefix _ _ _ E);
    rewrite H; [left | right]; by_run.
Qed.

Lemma trigger_is_raw_prefix_match_witness :
  is_trigger (lit "   Without a doubt, here is the query:") = true.
Proof.
  apply (proj2 (proj2 trigger_is_raw_prefix_match)
           (lit "   Without a doubt, here is the query:")
           (lit "With") (lit "out a doubt, here is the query:")).
  - by_run.
  - right. by_run.
Defined.

(** ** The prompt *)

Section PromptFacts.

(** [strip] removes whitespace at the two ends and nothing else: when the
    first part keeps a character under [lstrip] and the last part keeps
    one under [rstrip], the middle is untouched. *)
Lemma strip_frame (h m t : str) :
  lstrip h <> [] -> rstrip t <> [] ->
  strip (h ++ m ++ t) = lstrip h ++ m ++ rstrip t.
Proof.
  intros Hh Ht. unfold strip.
  assert (L : lstrip (h ++ m ++ t) = lstrip h ++ m ++ t).
  { unfold lstrip in *. rewrite drop_while_app.
    destruct (drop_while isspace h); [contradiction | reflexivity]. }
  rewrite L. unfold rstrip in *.
  rewrite !app_assoc, rev_app_distr, drop_while_app.
  destruct (drop_while isspace (rev t)) as [|c d]; [contradiction|].
  now rewrite rev_app_distr, rev_involutive.
Qed.

Lemma contains_nil (s : str) : contains [] s = true.
Proof. destruct s; reflexivity. Qed.

Lemma contains_app_l (c a b : str) :
  contains c a = true -> contains c (a ++ b) = true.
Proof.
  induction a as [|x a IH]; intros H.
  - destruct c; [apply contains_nil | discriminate].
  - cbn [contains app] in *. apply orb_true_iff in H as [H | H].
    + apply (startswith_app_l _ _ b) in H. cbn [app] in H. now rewrite H.
    + rewrite IH by exact H. apply orb_true_r.
Qed.

Lemma contains_app_r (c a b : str) :
  contains c b = true -> contains c (a ++ b) = true.
Proof.
  intros H. induction a as [|x a IH]; [exact H|].
  cbn [contains app]. rewrite IH. apply orb_true_r.
Qed.

Lemma contains_self (c : str) : contains c c = true.
Proof.
  destruct c as [|x c]; [reflexivity|].
  cbn [contains]. rewrite <- (app_nil_r (x :: c)) at 2.
  now rewrite startswith_app.
Qed.

(** Every name of the sequence occurs in the rendered list. *)
Lemma render_columns_contains (column_names : list str) (c : str) :
  In c column_names -> contains c (render_columns column_names) = true.
Proof.
  unfold render_columns.
  induction column_names as [|x rest IH]; intros H; [destruct H|].
  rewrite join_cons. destruct H as [-> | H].
  - apply contains_app_l, contains_self.
  - destruct rest as [|y rest]; [destruct H|].
    apply contains_app_r, contains_app_r, IH, H.
Qed.

Lemma COLUMN_SEP_eq : COLUMN_SEP = [0x2C; 0x20]%N.
Proof. reflexivity. Qed.

(** Reading one item that has no separator inside, up to the separator
    that follows it. *)
Lemma split_items_from_item (c cur rest : str) :
  contains COLUMN_SEP c = false ->
  split_items_from cur (c ++ COLUMN_SEP ++ rest)
  = (rev cur ++ c) :: split_items_from [] rest.
Proof.
  rewrite COLUMN_SEP_eq. revert cur.
  induction c as [|x c IH]; intros cur H.
  - cbn. now rewrite app_nil_r.
  - cbn [contains] in H. apply orb_false_iff in H as [Hx Hc].
    specialize (IH (x :: cur) Hc).
    cbn [app split_items_from] in *.
    destruct c as [|y c].
    + cbn [app]. rewrite andb_false_r.
      cbn [app] in IH. rewrite IH. cbn [rev]. now rewrite <- app_assoc.
    + cbn [app] in *.
      assert (T : ((x =? 0x2C) && (y =? 0x20))%N = false).
      { cbn [startswith] in Hx. rewrite andb_true_r in Hx.
        now rewrite (N.eqb_sym x), (N.eqb_sym y). }
      rewrite T, IH. cbn [rev]. now rewrite <- app_assoc.
Qed.

(** Reading the last item. *)
Lemma split_items_from_last (c cur : str) :
  contains COLUMN_SEP c = false ->
  split_items_from cur c = [rev cur ++ c].
Proof.
  rewrite COLUMN_SEP_eq. revert cur.
  induction c as [|x c IH]; intros cur H.
  - cbn. now rewrite app_nil_r.
  - cbn [contains] in H. apply orb_false_iff in H as [Hx Hc].
    specialize (IH (x :: cur) Hc).
    cbn [split_items_from]. destruct c as [|y c].
    + reflexivity.
    + assert (T : ((x =? 0x2C) && (y =? 0x20))%N = false).
      { cbn [startswith] in Hx. rewrite andb_true_r in Hx.
        now rewrite (N.eqb_sym x), (N.eqb_sym y). }
      rewrite T, IH. cbn [rev]. now rewrite <- app_assoc.
Qed.

(** When no name contains the separator, the items of the rendered list
    are the names, in order. *)
Lemma split_items_render_columns (column_names : list str) :
  column_names <> [] ->
  Forall (fun c => contains COLUMN_SEP c = false) column_names ->
  split_items (render_columns column_names) = column_names.
Proof.
  intros Hne H. unfold split_items, render_columns.
  induction H as [|x rest Hx Hrest IH]; [contradiction|].
  rewrite join_cons. destruct rest as [|y rest].
  - rewrite app_nil_r. now apply split_items_from_last.
  - rewrite split_items_from_item by exact Hx.
    cbn [rev app]. f_equal. apply IH. discriminate.
Qed.

End PromptFacts.

(** C4, as the code has it: for every sequence of column names and every
    question, the prompt is the instruction text, the names joined by
    [", "] in their order, the five examples, the question, and on the next
    line the cue [SQL:], which ends the prompt.  Every name occurs in the
    rendered list.  The list holds one item per position of the sequence:
    when no name contains the separator, its items are the names in order,
    and a name that occurs once in the sequence is an item exactly once. *)
Theorem prompt_renders_columns_and_cue :
  (forall (column_names : list str) (question : str),
      build_prompt (render_columns column_names) question
      = lstrip TEMPLATE_HEAD ++ render_columns column_names
        ++ TEMPLATE_EXAMPLES ++ question ++ lit "
SQL:")
  /\ (forall (column_names : list str) (c : str),
         In c column_names ->
         contains c (render_columns column_names) = true)
  /\ (forall column_names : list str,
         column_names <> [] ->
         Forall (fun c => contains COLUMN_SEP c = false) column_names ->
         split_items (render_columns column_names) = column_names)
  /\ (forall (column_names : list str) (c : str),
         NoDup column_names ->
         Forall (fun c => contains COLUMN_SEP c = false) column_names ->
         In c column_names ->
         count_occ str_eq_dec (split_items (render_columns column_names)) c
         = 1%nat).
Proof.
  split; [|split; [|split]].
  - intros column_names question. unfold build_prompt.
    rewrite (app_assoc (render_columns column_names)), (app_assoc _ question).
    rewrite strip_frame; [|vm_compute; discriminate|vm_compute; discriminate].
    rewrite <- !app_assoc. reflexivity.
  - exact render_columns_contains.
  - exact split_items_render_columns.
  - intros column_names c Hnd Hsep Hin.
    rewrite split_items_render_columns; [|now destruct column_names|exact Hsep].
    now apply NoDup_count_occ'.
Qed.

Lemma prompt_renders_columns_and_cue_witness :
  count_occ str_eq_dec
    (split_items (render_columns [lit "name"; lit "age"; lit "salary"]))
    (lit "age") = 1%nat.
Proof.
  apply (proj2 (proj2 (proj2 prompt_renders_columns_and_cue))).
  - repeat constructor; cbn [In]; intuition discriminate.
  - repeat (apply Forall_cons; [by_run|]); apply Forall_nil.
  - right. left. reflexivity.
Defined.

(** C4 as stated fails: in the list rendered for the two distinct names
    [state] and [city, state], the name [state] occurs twice, as a
    substring and as a comma-separated item, and so twice in the prompt's
    column list. *)
Lemma column_name_rendered_twice :
  In (lit "state") [lit "state"; lit "city, state"]
  /\ render_columns [lit "state"; lit "city, state"] = lit "state, city, state"
  /\ occurrences (lit "state") (render_columns [lit "state"; lit "city, state"])
     <> 1%nat
  /\ count_occ str_eq_dec
       (split_items (render_columns [lit "state"; lit "city, state"]))
       (lit "state") <> 1%nat.
Proof.
  split; [left; reflexivity|].
  split; [by_run|].
  split; vm_compute; discriminate.
Qed.

(** ** The completion request *)

Section ClientFacts.

Variable W : Type.
Variable post : request -> M W response.

(** A raised [Exception] becomes the text of the error. *)
Lemma generate_sql_query_caught (columns question : str) (w w' : W) (e : exn) :
  request_completion W post (build_prompt columns question) w = (inl e, w') ->
  is_Exception e = true ->
  generate_sql_query W post columns question w
  = (inr (ERROR_MARKER ++ exn_str e), w').
Proof.
  intros Hbody He. unfold generate_sql_query, try_except.
  cbv zeta. rewrite Hbody, He. reflexivity.
Qed.



Lemma request_completion_answered (prompt : str) (w w' : W) (r : response) :
  post (mk_request OLLAMA_API_URL MODEL_NAME prompt false) w = (inr r, w') ->
  request_completion W post prompt w =
  (match raise_for_status r with
   | inl e => inl e
   | inr _ =>
       match json r with
       | inl e => inl e
       | inr body =>
           match getitem_response body with
           | inl e => inl e
           | inr v => call_strip v
           end
       end
   end, w').
Proof.
  intros H. unfold request_completion, bind, lift, ret. rewrite H.
  destruct (raise_for_status r); [reflexivity|].
  destruct (json r) as [|body]; [reflexivity|].
  destruct (getitem_response body) as [|v]; [reflexivity|].
  destruct (call_strip v); reflexivity.
Qed.



End ClientFacts.



(** C8: the prompt is a function of the column list and the question and of
    nothing else.  Against a world that records what it is sent, and answers
    as it likes from the request and from everything it has seen, two calls
    with the same arguments send two requests that are equal, prompt
    included, whatever the first call returned. *)
Theorem prompt_construction_is_pure :
  forall (service : request -> list request -> result response)
         (columns question : str) (log : list request),
    let post := logging_post service in
    let after_first := snd (generate_sql_query _ post columns question log) in
    let after_second :=
      snd (generate_sql_query _ post columns question after_first) in
    let sent := mk_request OLLAMA_API_URL MODEL_NAME
                           (build_prompt columns question) false in
    after_first = log ++ [sent]
    /\ after_second = log ++ [sent; sent]
    /\ map req_prompt after_second
       = map req_prompt log
         ++ [build_prompt columns question; build_prompt columns question].
Proof.
  intros service columns question log post after_first after_second sent.
  assert (Hlog : forall l,
             snd (generate_sql_query _ post columns question l) = l ++ [sent]).
  { intros l.
    unfold generate_sql_query, try_except, request_completion, bind, lift, ret.
    cbv zeta. unfold post, logging_post. fold sent.
    destruct (service sent l) as [e | r].
    - destruct (is_Exception e); reflexivity.
    - destruct (raise_for_status r) as [e | u].
      + destruct (is_Exception e); reflexivity.
      + destruct (json r) as [e | body].
        * destruct (is_Exception e); reflexivity.
        * destruct (getitem_response body) as [e | v].
          -- destruct (is_Exception e); reflexivity.
          -- destruct (call_strip v) as [e | s].
             ++ destruct (is_Exception e); reflexivity.
             ++ reflexivity. }
  assert (H1 : after_first = log ++ [sent]) by apply Hlog.
  assert (H2 : after_second = log ++ [sent; sent]).
  { unfold after_second. rewrite Hlog, H1, <- app_assoc. reflexivity. }
  split; [exact H1 | split; [exact H2|]].
  rewrite H2, map_app. reflexivity.
Qed.

(** ** More about the extractor *)

Section ExtractorFacts.

(** What [drop_while] removes from the end is a suffix. *)
Lemma rev_drop_while_prefix (p : codepoint -> bool) (t : str) :
  exists d, t = rev (drop_while p (rev t)) ++ d.
Proof.
  destruct (drop_while_suffix p (rev t)) as [d E].
  exists (rev d). rewrite <- rev_app_distr, <- E. now rewrite rev_involutive.
Qed.

Lemma rev_drop_while_cons (p : codepoint -> bool) (c : codepoint) (r : str) :
  p c = false ->
  rev (drop_while p (rev (c :: r))) = c :: rev (drop_while p (rev r)).
Proof.
  intros Hc. cbn [rev]. rewrite drop_while_app.
  destruct (drop_while p (rev r)) as [|x d].
  - cbn [drop_while]. now rewrite Hc.
  - rewrite rev_app_distr. reflexivity.
Qed.

Lemma strip_head_not_space (s : str) (c : codepoint) (r : str) :
  strip s = c :: r -> isspace c = false.
Proof.
  unfold strip, rstrip. intros E.
  destruct (rev_drop_while_prefix isspace (lstrip s)) as [d Hd].
  rewrite E in Hd. unfold lstrip in Hd. cbn [app] in Hd.
  exact (drop_while_head isspace s c (r ++ d) Hd).
Qed.

Lemma strip_last_not_space (s a : str) (c : codepoint) :
  strip s = a ++ [c] -> isspace c = false.
Proof.
  unfold strip, rstrip. intros E.
  apply (f_equal (@rev N)) in E.
  rewrite rev_involutive, rev_app_distr in E. cbn [rev app] in E.
  exact (drop_while_head isspace _ c (rev a) E).
Qed.

Lemma length_drop_while (p : codepoint -> bool) (s : str) :
  (List.length (drop_while p s) <= List.length s)%nat.
Proof.
  destruct (drop_while_suffix p s) as [d E].
  rewrite E at 2. rewrite length_app. lia.
Qed.

Lemma length_strip (s : str) : (List.length (strip s) <= List.length s)%nat.
Proof.
  unfold strip, rstrip, lstrip. rewrite length_rev.
  etransitivity; [apply length_drop_while|]. rewrite length_rev.
  apply length_drop_while.
Qed.

Lemma length_rstrip_chars (chars s : str) :
  (List.length (rstrip_chars chars s) <= List.length s)%nat.
Proof.
  unfold rstrip_chars. rewrite length_rev.
  etransitivity; [apply length_drop_while|]. now rewrite length_rev.
Qed.

Lemma startswith_SELECT_head (c : codepoint) (x : str) :
  startswith SELECT (c :: x) = true -> c = 0x53%N.
Proof.
  change SELECT with (0x53%N :: lit "ELECT"). cbn [startswith].
  intros H. apply andb_true_iff in H as [H _].
  symmetry. now apply N.eqb_eq.
Qed.

Lemma startswith_WITH_head (c : codepoint) (x : str) :
  startswith WITH (c :: x) = true -> c = 0x57%N.
Proof.
  change WITH with (0x57%N :: lit "ITH"). cbn [startswith].
  intros H. apply andb_true_iff in H as [H _].
  symmetry. now apply N.eqb_eq.
Qed.

(** A line whose first character is not whitespace, is its own uppercase
    form and is neither [S] nor [W] does not trigger. *)
Lemma not_trigger_by_head (c : codepoint) (x : str) :
  isspace c = false -> upper_char c = [c] ->
  c <> 0x53%N -> c <> 0x57%N ->
  is_trigger (c :: x) = false.
Proof.
  intros Hs Hu HS HW. unfold is_trigger, strip, lstrip, rstrip.
  cbn [drop_while]. rewrite Hs.
  rewrite rev_drop_while_cons by exact Hs.
  unfold upper. cbn [flat_map]. rewrite Hu. cbn [app].
  apply orb_false_iff. split.
  - destruct (startswith SELECT _) eqn:E; [|reflexivity].
    now apply startswith_SELECT_head in E.
  - destruct (startswith WITH _) eqn:E; [|reflexivity].
    now apply startswith_WITH_head in E.
Qed.

(** The trimmed form of a triggering line begins with a character that is
    neither whitespace nor a semicolon. *)
Lemma trigger_head (line : str) :
  is_trigger line = true ->
  exists c r, strip line = c :: r /\ isspace c = false /\ c <> 0x3B%N.
Proof.
  intros H. destruct (strip line) as [|c r] eqn:E.
  - unfold is_trigger in H. rewrite E in H. discriminate H.
  - exists c, r. split; [reflexivity|]. split.
    + exact (strip_head_not_space line c r E).
    + intros ->. unfold is_trigger in H. rewrite E in H.
      unfold upper in H. cbn [flat_map] in H.
      change (upper_char 0x3B%N) with [0x3B%N] in H. cbn [app] in H.
      apply orb_true_iff in H as [H | H].
      * apply startswith_SELECT_head in H. discriminate H.
      * apply startswith_WITH_head in H. discriminate H.
Qed.

Lemma rstrip_chars_cons (c : codepoint) (r : str) :
  c <> 0x3B%N ->
  rstrip_chars SEMICOLON (c :: r) = c :: rstrip_chars SEMICOLON r.
Proof.
  intros Hc. unfold rstrip_chars. apply rev_drop_while_cons.
  rewrite mem_semicolon. now apply N.eqb_neq.
Qed.

(** The lines split at the first one that triggers, if there is one. *)
Lemma first_trigger_split (lines : list str) :
  no_trigger lines
  \/ exists pre first post,
       lines = pre ++ first :: post /\ no_trigger pre /\ is_trigger first = true.
Proof.
  induction lines as [|l rest IH].
  - left. constructor.
  - destruct (is_trigger l) eqn:E.
    + right. exists [], l, rest. repeat split; [constructor | exact E].
    + destruct IH as [IH | (pre & first & post & -> & Hpre & Hfirst)].
      * left. now constructor.
      * right. exists (l :: pre), first, post.
        repeat split; [now constructor | exact Hfirst].
Qed.

(** The lines split at the first one that ends the statement, if any. *)
Lemma first_terminator_split (lines : list str) :
  no_terminator lines
  \/ exists body line post,
       lines = body ++ line :: post /\ no_terminator body
       /\ endswith SEMICOLON (strip line) = true.
Proof.
  induction lines as [|l rest IH].
  - left. constructor.
  - destruct (endswith SEMICOLON (strip l)) eqn:E.
    + right. exists [], l, rest. repeat split; [constructor | exact E].
    + destruct IH as [IH | (body & line & post & -> & Hbody & Hline)].
      * left. now constructor.
      * right. exists (l :: body), line, post.
        repeat split; [now constructor | exact Hline].
Qed.

(** From the first triggering line on, the result begins with the first
    character of that line's trimmed form. *)
Lemma extract_head (text : str) (pre : list str) (first : str) (post : list str) :
  splitlines text = pre ++ first :: post ->
  no_trigger pre -> is_trigger first = true ->
  exists c r r',
    strip first = c :: r /\ isspace c = false
    /\ extract_sql_only text = c :: r'.
Proof.
  intros Hlines Hpre Hfirst.
  destruct (trigger_head first Hfirst) as (c & r & E & Hs & Hc).
  unfold extract_sql_only.
  rewrite Hlines, (scan_skip [] pre (first :: post) Hpre).
  rewrite (scan_step_trigger false [] first post Hfirst), scan_step_capture.
  rewrite E. destruct (endswith SEMICOLON (c :: r)).
  - rewrite rstrip_chars_cons by exact Hc. cbn [app join].
    exists c, r. eexists.
    split; [reflexivity|]. split; [exact Hs | reflexivity].
  - rewrite scan_acc. cbn [app]. rewrite join_cons. cbn [app].
    exists c, r. eexists.
    split; [reflexivity|]. split; [exact Hs | reflexivity].
Qed.

(** A text without a line boundary is its own single line. *)
Lemma splitlines_from_one_line (s cur : str) :
  single_line s ->
  splitlines_from cur s =
  match rev cur ++ s with [] => [] | _ :: _ => [rev cur ++ s] end.
Proof.
  unfold single_line. revert cur.
  induction s as [|c r IH]; intros cur H.
  - cbn [splitlines_from]. rewrite app_nil_r.
    destruct cur as [|x cur]; [reflexivity|].
    destruct (rev (x :: cur)) eqn:E; [|reflexivity].
    apply (f_equal (@List.length N)) in E. rewrite length_rev in E.
    discriminate E.
  - cbn [forallb] in H. apply andb_true_iff in H as [Hc Hr].
    apply negb_true_iff in Hc.
    cbn [splitlines_from]. rewrite Hc, (IH (c :: cur) Hr).
    cbn [rev]. rewrite <- app_assoc. cbn [app].
    destruct (rev cur); reflexivity.
Qed.

Lemma splitlines_one_line (s : str) :
  single_line s -> s <> [] -> splitlines s = [s].
Proof.
  intros H Hne. unfold splitlines.
  rewrite (splitlines_from_one_line s [] H). cbn [rev app].
  destruct s; [contradiction | reflexivity].
Qed.

Lemma length_join_cons (x : str) (rest : list str) :
  List.length (join (lit " ") (x :: rest)) =
  (List.length x
   + match rest with
     | [] => 0
     | _ :: _ => 1 + List.length (join (lit " ") rest)
     end)%nat.
Proof.
  rewrite join_cons, length_app. destruct rest; [reflexivity|].
  now rewrite length_app.
Qed.

Lemma length_join_splitlines_bounded (n : nat) :
  forall s cur : str,
    (List.length s <= n)%nat ->
    (List.length (join (lit " ") (splitlines_from cur s))
     <= List.length cur + List.length s)%nat.
Proof.
  induction n as [|n IH]; intros s cur Hlen.
  - destruct s; [|cbn [List.length] in Hlen; lia].
    cbn [splitlines_from]. destruct cur as [|x cur]; [cbn; lia|].
    cbn [join]. rewrite length_rev. lia.
  - destruct s as [|c r].
    + cbn [splitlines_from]. destruct cur as [|x cur]; [cbn; lia|].
      cbn [join]. rewrite length_rev. lia.
    + cbn [List.length] in Hlen. cbn [splitlines_from].
      destruct (is_linebreak c).
      * destruct r as [|c' r'].
        -- rewrite length_join_cons, length_rev. cbn. lia.
        -- cbn [List.length] in Hlen.
           destruct ((c =? 0x0D)%N && (c' =? 0x0A)%N);
             rewrite length_join_cons, length_rev.
           ++ specialize (IH r' [] ltac:(lia)).
              destruct (splitlines_from [] r'); cbn [List.length] in *; lia.
           ++ specialize (IH (c' :: r') [] ltac:(cbn [List.length]; lia)).
              destruct (splitlines_from [] (c' :: r'));
                cbn [List.length] in *; lia.
      * specialize (IH r (c :: cur) ltac:(lia)).
        cbn [List.length] in *. lia.
Qed.

Lemma length_join_scan_capture (lines : list str) :
  (List.length (join (lit " ") (scan true [] lines))
   <= List.length (join (lit " ") lines))%nat.
Proof.
  induction lines as [|l rest IH]; [reflexivity|].
  rewrite scan_step_capture, (length_join_cons l rest).
  destruct (endswith SEMICOLON (strip l)).
  - cbn [app join].
    pose proof (length_rstrip_chars SEMICOLON (strip l)).
    pose proof (length_strip l). lia.
  - rewrite scan_acc. cbn [app]. rewrite length_join_cons.
    pose proof (length_strip l).
    destruct (scan true [] rest) eqn:E; [lia|].
    destruct rest; [discriminate E | lia].
Qed.

Lemma length_join_scan (lines : list str) :
  (List.length (join (lit " ") (scan false [] lines))
   <= List.length (join (lit " ") lines))%nat.
Proof.
  induction lines as [|l rest IH]; [reflexivity|].
  destruct (is_trigger l) eqn:E.
  - rewrite (scan_step_trigger false [] l rest E).
    apply length_join_scan_capture.
  - rewrite (scan_step_skip [] l rest E), length_join_cons.
    destruct rest; [cbn in *; lia | lia].
Qed.

End ExtractorFacts.

(** X1: the extractor returns the empty string exactly when no line of the
    text passes the test of line 138; and a result that is not empty begins
    with a character that is not whitespace. *)
Theorem extract_empty_iff_no_trigger :
  forall text : str,
    (extract_sql_only text = [] <-> no_trigger (splitlines text))
    /\ (forall (c : codepoint) (r : str),
           extract_sql_only text = c :: r -> isspace c = false).
Proof.
  intros text.
  destruct (first_trigger_split (splitlines text))
    as [Hnone | (pre & first & post & Hlines & Hpre & Hfirst)].
  - assert (E : extract_sql_only text = []).
    { unfold extract_sql_only. now rewrite scan_skip_all by exact Hnone. }
    split; [split; intros _; assumption|].
    intros c r H. rewrite E in H. discriminate H.
  - destruct (extract_head text pre first post Hlines Hpre Hfirst)
      as (c & r & r' & _ & Hs & E).
    split; [split|].
    + intros H. rewrite E in H. discriminate H.
    + intros H. rewrite Hlines in H. apply Forall_app in H as [_ H].
      inversion H as [|? ? Hf _]; subst. rewrite Hfirst in Hf. discriminate Hf.
    + intros c0 r0 H. rewrite E in H. injection H as <- _. exact Hs.
Qed.

(** X2: every text falls in one of three cases, which give the whole
    result: no line triggers and the result is empty; or the capture runs
    from the first triggering line to the end of the text; or it runs to the
    first captured line whose trimmed form ends with a semicolon, and the
    lines after that one play no part. *)
Theorem extract_three_cases :
  forall text : str,
    (no_trigger (splitlines text) /\ extract_sql_only text = [])
    \/ (exists (pre : list str) (first : str) (rest : list str),
           splitlines text = pre ++ first :: rest
           /\ no_trigger pre /\ is_trigger first = true
           /\ no_terminator (first :: rest)
           /\ extract_sql_only text = join (lit " ") (map strip (first :: rest)))
    \/ (exists (pre body : list str) (line : str) (post : list str),
           splitlines text = pre ++ body ++ line :: post
           /\ no_trigger pre /\ is_trigger (hd line body) = true
           /\ no_terminator body
           /\ endswith SEMICOLON (strip line) = true
           /\ extract_sql_only text =
              join (lit " ")
                   (map strip body ++ [rstrip_chars SEMICOLON (strip line)])).
Proof.
  intros text. unfold extract_sql_only.
  destruct (first_trigger_split (splitlines text))
    as [Hnone | (pre & first & rest & Hlines & Hpre & Hfirst)].
  - left. split; [exact Hnone|]. now rewrite scan_skip_all by exact Hnone.
  - right. rewrite Hlines, (scan_skip [] pre (first :: rest) Hpre).
    rewrite (scan_step_trigger false [] first rest Hfirst).
    destruct (first_terminator_split (first :: rest))
      as [Hall | (body & line & post & Hsplit & Hbody & Hline)].
    + left. exists pre, first, rest.
      repeat (split; [first [reflexivity | assumption]|]).
      now rewrite scan_run_all by exact Hall.
    + right. exists pre, body, line, post. rewrite Hsplit.
      split; [reflexivity|]. split; [exact Hpre|].
      split.
      { destruct body as [|b body]; cbn [app] in Hsplit;
          injection Hsplit as -> _; exact Hfirst. }
      split; [exact Hbody|]. split; [exact Hline|].
      rewrite (scan_run [] body (line :: post) Hbody).
      now rewrite (scan_stop _ line post Hline).
Qed.

(** X3: whatever the text, the result holds no line boundary, so a result
    that is not empty is exactly one line for [splitlines]. *)
Theorem extract_result_is_one_line :
  forall text : str,
    single_line (extract_sql_only text)
    /\ (extract_sql_only text <> [] ->
        splitlines (extract_sql_only text) = [extract_sql_only text]).
Proof.
  intros text. split; [apply extract_single_line|].
  apply splitlines_one_line, extract_single_line.
Qed.

Lemma extract_result_is_one_line_witness :
  splitlines (extract_sql_only (lit "Sure:
SELECT name
FROM user_data;
Bye.")) = [extract_sql_only (lit "Sure:
SELECT name
FROM user_data;
Bye.")].
Proof.
  apply (proj2 (extract_result_is_one_line (lit "Sure:
SELECT name
FROM user_data;
Bye."))).
  vm_compute. discriminate.
Defined.

(** X4: the result is never longer than the text it is extracted from. *)
Theorem extract_not_longer_than_text :
  forall text : str,
    (List.length (extract_sql_only text) <= List.length text)%nat.
Proof.
  intros text. unfold extract_sql_only.
  etransitivity; [apply length_join_scan|].
  apply (length_join_splitlines_bounded (List.length text) text []). lia.
Qed.

(** ** The request and the extractor together *)

Section PipelineFacts.

Lemma ERROR_MARKER_single_line : single_line ERROR_MARKER.
Proof. reflexivity. Qed.

(** No SQL is found in an error text whose description is one line. *)
Lemma extract_error_text (description : str) :
  single_line description ->
  extract_sql_only (ERROR_MARKER ++ description) = [].
Proof.
  intros H.
  assert (Hline : single_line (ERROR_MARKER ++ description)).
  { unfold single_line in *. rewrite forallb_app, H. reflexivity. }
  unfold extract_sql_only.
  rewrite (splitlines_one_line _ Hline) by discriminate.
  rewrite scan_skip_all; [reflexivity|].
  constructor; [|constructor].
  change (ERROR_MARKER ++ description)
    with (0x274C%N :: (lit " Error: " ++ description)).
  apply not_trigger_by_head; [reflexivity | reflexivity | discriminate | discriminate].
Qed.

Lemma generate_and_extract_of (W : Type) (post : request -> M W response)
      (columns question : str) (w w' : W) (full_response : str) :
  generate_sql_query W post columns question w = (inr full_response, w') ->
  generate_and_extract W post columns question w
  = (inr (extract_sql_only full_response), w').
Proof.
  intros H. unfold generate_and_extract, bind, ret. now rewrite H.
Qed.

Lemma generate_sql_query_answered (W : Type) (post : request -> M W response)
      (columns question : str) (w w' : W) (r : response)
      (items : list (str * pyobj)) (s : str) :
  post (mk_request OLLAMA_API_URL MODEL_NAME (build_prompt columns question) false) w
  = (inr r, w') ->
  raise_for_status r = inr tt ->
  json r = inr (PyDict items) ->
  dict_get (lit "response") items = Some (PyStr s) ->
  generate_sql_query W post columns question w = (inr (strip s), w').
Proof.
  intros Hpost Hstatus Hjson Hfield.
  unfold generate_sql_query, try_except. cbv zeta.
  rewrite (request_completion_answered W post _ w w' r Hpost).
  rewrite Hstatus, Hjson. cbn [getitem_response]. rewrite Hfield.
  reflexivity.
Qed.

End PipelineFacts.

(** X5: when the request fails with an [Exception] whose description holds
    no line boundary, the error text that [generate_sql_query] returns
    contains no SQL for the extractor: lines 215 and 216 end with the empty
    string. *)
Theorem failed_request_extracts_nothing :
  forall (W : Type) (post : request -> M W response) (columns question : str)
         (w w' : W) (e : exn),
    request_completion W post (build_prompt columns question) w = (inl e, w') ->
    is_Exception e = true ->
    single_line (exn_str e) ->
    generate_and_extract W post columns question w = (inr [], w').
Proof.
  intros W post columns question w w' e Hbody He Hline.
  rewrite (generate_and_extract_of W post columns question w w'
             (ERROR_MARKER ++ exn_str e)).
  - now rewrite extract_error_text.
  - now apply generate_sql_query_caught.
Qed.

Lemma failed_request_extracts_nothing_witness :
  generate_and_extract unit refusing_post (lit "name, age")
                       (lit "How many rows?") tt
  = (inr [], tt).
Proof.
  apply (failed_request_extracts_nothing unit refusing_post
           (lit "name, age") (lit "How many rows?") tt tt
           (mk_exn ConnectionError (lit "Connection refused"))).
  - reflexivity.
  - reflexivity.
  - reflexivity.
Defined.

(** X6: when the service answers, the status check passes and the body is
    an object whose ["response"] field is a string, [generate_sql_query]
    returns that string trimmed: it has no whitespace at either end, and
    the extractor is run on the trimmed string. *)
Theorem answered_request_returns_trimmed_field :
  forall (W : Type) (post : request -> M W response) (columns question : str)
         (w w' : W) (r : response) (items : list (str * pyobj)) (s : str),
    post (mk_request OLLAMA_API_URL MODEL_NAME
                     (build_prompt columns question) false) w
    = (inr r, w') ->
    raise_for_status r = inr tt ->
    json r = inr (PyDict items) ->
    dict_get (lit "response") items = Some (PyStr s) ->
    generate_sql_query W post columns question w = (inr (strip s), w')
    /\ generate_and_extract W post columns question w
       = (inr (extract_sql_only (strip s)), w')
    /\ (forall (c : codepoint) (t : str), strip s = c :: t -> isspace c = false)
    /\ (forall (t : str) (c : codepoint), strip s = t ++ [c] -> isspace c = false).
Proof.
  intros W post columns question w w' r items s Hpost Hstatus Hjson Hfield.
  assert (H : generate_sql_query W post columns question w = (inr (strip s), w'))
    by exact (generate_sql_query_answered W post columns question w w' r items s
                Hpost Hstatus Hjson Hfield).
  split; [exact H|]. split.
  - now apply generate_and_extract_of.
  - split.
    + intros c t. apply strip_head_not_space.
    + intros t c. apply strip_last_not_space.
Qed.

Lemma answered_request_returns_trimmed_field_witness :
  generate_and_extract unit
    (answering_post (PyDict [(lit "model", PyStr (lit "llama3.2:latest"));
                             (lit "response", PyStr (lit "
  Here is the query:
  SELECT name FROM user_data;
"));
                             (lit "done", PyBool true)]))
    (lit "name, age") (lit "List the names.") tt
  = (inr (lit "SELECT name FROM user_data"), tt).
Proof.
  assert (E : extract_sql_only (strip (lit "
  Here is the query:
  SELECT name FROM user_data;
")) = lit "SELECT name FROM user_data") by by_run.
  rewrite <- E.
  apply (proj1 (proj2
    (answered_request_returns_trimmed_field unit
       (answering_post (PyDict [(lit "model", PyStr (lit "llama3.2:latest"));
                                (lit "response", PyStr (lit "
  Here is the query:
  SELECT name FROM user_data;
"));
                                (lit "done", PyBool true)]))
       (lit "name, age") (lit "List the names.") tt tt
       (mk_response (inr tt)
          (inr (PyDict [(lit "model", PyStr (lit "llama3.2:latest"));
                        (lit "response", PyStr (lit "
  Here is the query:
  SELECT name FROM user_data;
"));
                        (lit "done", PyBool true)])))
       [(lit "model", PyStr (lit "llama3.2:latest"));
        (lit "response", PyStr (lit "
  Here is the query:
  SELECT name FROM user_data;
"));
        (lit "done", PyBool true)]
       (lit "
  Here is the query:
  SELECT name FROM user_data;
")
       eq_refl eq_refl eq_refl ltac:(by_run)))).
Defined.

(** ** More about the prompt *)

Lemma build_prompt_shape (columns question : str) :
  build_prompt columns question
  = lstrip TEMPLATE_HEAD ++ columns ++ TEMPLATE_EXAMPLES ++ question
    ++ rstrip TEMPLATE_CUE.
Proof.
  unfold build_prompt.
  rewrite (app_assoc columns), (app_assoc _ question).
  rewrite strip_frame; [|vm_compute; discriminate|vm_compute; discriminate].
  now rewrite <- !app_assoc.
Qed.

(** X7: the two fields enter the prompt as they are, nothing of them is
    trimmed or escaped: the prompt is longer than its two arguments by a
    fixed 933 characters, and with one argument fixed it determines the
    other. *)
Theorem prompt_keeps_its_fields :
  (forall columns question : str,
      List.length (build_prompt columns question)
      = (List.length columns + List.length question + 933)%nat)
  /\ (forall columns q1 q2 : str,
         build_prompt columns q1 = build_prompt columns q2 -> q1 = q2)
  /\ (forall c1 c2 question : str,
         build_prompt c1 question = build_prompt c2 question -> c1 = c2).
Proof.
  split; [|split].
  - intros columns question. rewrite build_prompt_shape, !length_app.
    change (List.length (lstrip TEMPLATE_HEAD)) with 169%nat.
    change (List.length TEMPLATE_EXAMPLES) with 759%nat.
    change (List.length (rstrip TEMPLATE_CUE)) with 5%nat. lia.
  - intros columns q1 q2. rewrite !build_prompt_shape. intros H.
    apply app_inv_head in H. apply app_inv_head in H.
    apply app_inv_head in H. now apply app_inv_tail in H.
  - intros c1 c2 question. rewrite !build_prompt_shape. intros H.
    apply app_inv_head in H. now apply app_inv_tail in H.
Qed.

Lemma prompt_keeps_its_fields_witness : lit "a  " = lit "a  ".
Proof.
  apply (proj1 (proj2 prompt_keeps_its_fields) (lit "name, age")).
  reflexivity.
Defined.

(** ** The credential functions *)

Section DictFacts.

Lemma dict_get_set_same (key : str) (v : pyobj) (items : list (str * pyobj)) :
  dict_get key (dict_set key v items) = Some v.
Proof.
  induction items as [|[k x] items IH]; cbn [dict_set dict_get].
  - now destruct (str_eq_dec key key).
  - destruct (str_eq_dec k key) as [E | E]; cbn [dict_get].
    + now destruct (str_eq_dec k key).
    + now destruct (str_eq_dec k key).
Qed.

Lemma dict_get_set_other (key other : str) (v : pyobj)
      (items : list (str * pyobj)) :
  other <> key ->
  dict_get other (dict_set key v items) = dict_get other items.
Proof.
  intros Hne. induction items as [|[k x] items IH]; cbn [dict_set dict_get].
  - destruct (str_eq_dec key other); [congruence | reflexivity].
  - destruct (str_eq_dec k key) as [E | E]; cbn [dict_get].
    + destruct (str_eq_dec k other); [congruence | reflexivity].
    + destruct (str_eq_dec k other); [reflexivity | exact IH].
Qed.

(** Setting a key that is not there appends it. *)
Lemma dict_set_absent (key : str) (v : pyobj) (items : list (str * pyobj)) :
  dict_get key items = None -> dict_set key v items = items ++ [(key, v)].
Proof.
  induction items as [|[k x] items IH]; cbn [dict_set dict_get app];
    [reflexivity|].
  destruct (str_eq_dec k key); [discriminate|].
  intros H. now rewrite IH.
Qed.

Lemma eq_str_true (o : pyobj) (s : str) : eq_str o s = true <-> o = PyStr s.
Proof.
  destruct o; cbn [eq_str]; try (split; discriminate).
  destruct (str_eq_dec s0 s) as [-> | E]; split; try reflexivity;
    try discriminate.
  intros H. injection H as ->. contradiction.
Qed.

End DictFacts.

Section HashFacts.

Lemma hex_digit_in (v : N) : (v < 16)%N -> In (hex_digit v) HEX_DIGITS.
Proof.
  intros H. unfold hex_digit. apply nth_In.
  change (List.length HEX_DIGITS) with 16%nat. lia.
Qed.

Lemma hex8_length (w : N) : List.length (SHA256.hex8 w) = 8%nat.
Proof. reflexivity. Qed.

Lemma hex8_digits (w : N) : Forall (fun c => In c HEX_DIGITS) (SHA256.hex8 w).
Proof.
  unfold SHA256.hex8. apply Forall_forall. intros c Hc.
  apply in_map_iff in Hc as (k & <- & _).
  apply hex_digit_in. now apply N.mod_lt.
Qed.

Lemma utf8_encode_from_outcome (s : str) (pos : nat) :
  if existsb is_surrogate s
  then exists e, utf8_encode_from pos s = inl e /\ is_Exception e = true
  else exists bytes, utf8_encode_from pos s = inr bytes.
Proof.
  revert pos. induction s as [|c r IH]; intros pos.
  - cbn. now exists [].
  - cbn [existsb utf8_encode_from]. destruct (is_surrogate c).
    + cbn [orb]. eexists. split; reflexivity.
    + cbn [orb]. specialize (IH (S pos)).
      destruct (existsb is_surrogate r).
      * destruct IH as (e & -> & He). now exists e.
      * destruct IH as (bytes & ->). now eexists.
Qed.

End HashFacts.

(** X8: [hash_password] returns a digest exactly for the passwords that
    hold no surrogate code point, and raises an [Exception]
    ([UnicodeEncodeError], from [encode]) for the others; a digest is 64
    characters, each one of [0123456789abcdef]. *)
Theorem hash_password_outcomes :
  forall password : str,
    ((exists h, hash_password password = inr h)
     <-> existsb is_surrogate password = false)
    /\ ((exists e, hash_password password = inl e /\ is_Exception e = true)
        <-> existsb is_surrogate password = true)
    /\ (forall h : str,
           hash_password password = inr h ->
           List.length h = 64%nat /\ Forall (fun c => In c HEX_DIGITS) h).
Proof.
  intros password. unfold hash_password, utf8_encode.
  pose proof (utf8_encode_from_outcome password 0) as H.
  destruct (existsb is_surrogate password).
  - destruct H as (e & -> & He).
    split; [split; [intros [h Hh]; discriminate Hh | discriminate]|].
    split; [split; [reflexivity | intros _; now exists e]|].
    intros h Hh. discriminate Hh.
  - destruct H as (bytes & ->).
    split; [split; [reflexivity | intros _; now eexists]|].
    split; [split; [intros (e & He & _); discriminate He | discriminate]|].
    intros h Hh. injection Hh as <-. unfold SHA256.hexdigest. cbv zeta.
    split.
    + now rewrite !length_app, !hex8_length.
    + repeat (apply Forall_app; split; [apply hex8_digits|]).
      apply hex8_digits.
Qed.

Lemma hash_password_outcomes_witness :
  List.length (SHA256.hexdigest (lit "secret")) = 64%nat
  /\ Forall (fun c => In c HEX_DIGITS) (SHA256.hexdigest (lit "secret")).
Proof.
  apply (proj2 (proj2 (hash_password_outcomes (lit "secret")))).
  reflexivity.
Defined.

(** X9: [check_password] answers [True] exactly when the name is a key of
    [users], the stored value is a string, and that string is the SHA-256
    hex digest of the password.  For a name that is not a key the answer is
    [False] and the password is not hashed, so nothing is raised even for a
    password that cannot be encoded. *)
Theorem check_password_accepts_the_stored_digest :
  forall (users : list (str * pyobj)) (username password : str),
    (check_password users username password = inr true
     <-> exists h, dict_get username users = Some (PyStr h)
                   /\ hash_password password = inr h)
    /\ (dict_get username users = None ->
        check_password users username password = inr false).
Proof.
  intros users username password. unfold check_password.
  destruct (dict_get username users) as [stored|].
  - split; [|discriminate].
    destruct (hash_password password) as [e | h].
    + split; [discriminate | intros (h & _ & H); discriminate H].
    + split.
      * intros H. injection H as H. apply eq_str_true in H. subst stored.
        now exists h.
      * intros (h' & Hs & Hh). injection Hs as ->. injection Hh as ->.
        f_equal. now apply eq_str_true.
  - split; [|reflexivity].
    split; [discriminate | intros (h & H & _); discriminate H].
Qed.

Lemma check_password_accepts_the_stored_digest_witness :
  check_password [(lit "alice", PyStr (lit "x"))] (lit "bob") [0xD800%N]
  = inr false.
Proof.
  apply (proj2 (check_password_accepts_the_stored_digest
                  [(lit "alice", PyStr (lit "x"))] (lit "bob") [0xD800%N])).
  reflexivity.
Defined.

Section RegisterFacts.

Variable W : Type.
Variable fs : file_system W.

Lemma dict_get_app_some (key : str) (x : pyobj) (items more : list (str * pyobj)) :
  dict_get key items = Some x -> dict_get key (items ++ more) = Some x.
Proof.
  induction items as [|[k y] items IH]; cbn [dict_get app]; [discriminate|].
  destruct (str_eq_dec k key); [trivial | exact IH].
Qed.

(** The three ways through [register_user]: the name is taken; the
    password cannot be hashed; the new entry is appended and [save_users]
    is called with the new dict. *)
Lemma register_user_cases (username password : str) (s : session W) :
  (exists x, dict_get username (users s) = Some x
             /\ register_user fs username password s = (inr false, s))
  \/ (dict_get username (users s) = None
      /\ exists e, hash_password password = inl e
                   /\ register_user fs username password s = (inl e, s))
  \/ (dict_get username (users s) = None
      /\ exists h r w,
          hash_password password = inr h
          /\ save_users fs (users s ++ [(username, PyStr h)]) (disk s) = (r, w)
          /\ register_user fs username password s
             = (match r with inl e => inl e | inr _ => inr true end,
                mk_session (users s ++ [(username, PyStr h)]) w)).
Proof.
  unfold register_user.
  destruct (dict_get username (users s)) as [x|] eqn:Hget.
  - left. now exists x.
  - right. destruct (hash_password password) as [e | h].
    + left. split; [reflexivity|]. now exists e.
    + right. split; [reflexivity|]. cbv zeta.
      rewrite (dict_set_absent username (PyStr h) (users s) Hget).
      destruct (save_users fs (users s ++ [(username, PyStr h)]) (disk s))
        as [r w] eqn:Hsave.
      exists h, r, w. split; [reflexivity|]. split; [exact Hsave|].
      rewrite ?Hsave. now destruct r.
Qed.

End RegisterFacts.

(** X10: whatever [register_user] returns or raises, every entry that was
    in [users] is still there with the same value, so [check_password]
    answers as before for every name that was registered: registering can
    neither overwrite nor lock out an existing account. *)
Theorem register_user_keeps_existing_accounts :
  forall (W : Type) (fs : file_system W) (username password : str)
         (s : session W) (name : str) (stored : pyobj),
    dict_get name (users s) = Some stored ->
    dict_get name (users (snd (register_user fs username password s)))
    = Some stored
    /\ (forall p : str,
           check_password (users (snd (register_user fs username password s)))
                          name p
           = check_password (users s) name p).
Proof.
  intros W fs username password s name stored Hget.
  assert (H : dict_get name (users (snd (register_user fs username password s)))
              = Some stored).
  { destruct (register_user_cases W fs username password s)
      as [(x & _ & ->) | [(_ & e & _ & ->) | (_ & h & r & w & _ & _ & ->)]];
      cbn [snd users]; try exact Hget.
    now apply dict_get_app_some. }
  split; [exact H|].
  intros p. unfold check_password. now rewrite H, Hget.
Qed.

Lemma register_user_keeps_existing_accounts_witness :
  dict_get (lit "alice")
    (users (snd (register_user memory_fs (lit "bob") (lit "hunter2")
                   (mk_session [(lit "alice", PyStr (lit "0123"))] []))))
  = Some (PyStr (lit "0123")).
Proof.
  apply (register_user_keeps_existing_accounts _ memory_fs
           (lit "bob") (lit "hunter2")
           (mk_session [(lit "alice", PyStr (lit "0123"))] [])
           (lit "alice") (PyStr (lit "0123"))).
  reflexivity.
Defined.

(** X11: when [register_user] returns [True], the name was not a key, the
    dict has gained one entry at its end, the name with the digest of the
    password, [check_password] accepts the name with that password, and a
    second registration of the name returns [False] and changes nothing. *)
Theorem register_then_login :
  forall (W : Type) (fs : file_system W) (username password : str)
         (s s' : session W),
    register_user fs username password s = (inr true, s') ->
    dict_get username (users s) = None
    /\ (exists h, hash_password password = inr h
                  /\ users s' = users s ++ [(username, PyStr h)])
    /\ check_password (users s') username password = inr true
    /\ (forall again : str,
           register_user fs username again s' = (inr false, s')).
Proof.
  intros W fs username password s s' H.
  destruct (register_user_cases W fs username password s)
    as [(x & _ & E) | [(_ & e & _ & E) | (Hnone & h & r & w & Hh & _ & E)]];
    rewrite E in H; try discriminate H.
  destruct r as [e | u]; [discriminate H|].
  injection H as <-. cbn [users].
  assert (Hget : dict_get username (users s ++ [(username, PyStr h)])
                 = Some (PyStr h)).
  { rewrite <- (dict_set_absent username (PyStr h) (users s) Hnone).
    apply dict_get_set_same. }
  split; [exact Hnone|]. split; [now exists h|]. split.
  - unfold check_password. rewrite Hget, Hh. f_equal. now apply eq_str_true.
  - intros again. unfold register_user. cbn [users]. now rewrite Hget.
Qed.

Lemma register_then_login_witness :
  check_password
    (users (snd (register_user memory_fs (lit "alice") (lit "secret")
                   (mk_session [] []))))
    (lit "alice") (lit "secret")
  = inr true.
Proof.
  refine (proj1 (proj2 (proj2
    (register_then_login _ memory_fs (lit "alice") (lit "secret")
       (mk_session [] [])
       (snd (register_user memory_fs (lit "alice") (lit "secret")
               (mk_session [] [])))
       _)))).
  by_run.
Defined.

(** X13: the dict is changed before the file is written.  When
    [save_users] raises, [register_user] raises the same exception and
    [users] already holds the new name, so a second attempt on the same
    dict returns [False], although the save failed. *)
Theorem failed_save_leaves_the_name_registered :
  forall (W : Type) (fs : file_system W) (username password h : str)
         (s : session W) (e : exn) (w : W),
    dict_get username (users s) = None ->
    hash_password password = inr h ->
    save_users fs (users s ++ [(username, PyStr h)]) (disk s) = (inl e, w) ->
    register_user fs username password s
    = (inl e, mk_session (users s ++ [(username, PyStr h)]) w)
    /\ register_user fs username password
         (mk_session (users s ++ [(username, PyStr h)]) w)
       = (inr false, mk_session (users s ++ [(username, PyStr h)]) w).
Proof.
  intros W fs username password h s e w Hnone Hh Hsave.
  assert (Hget : dict_get username (users s ++ [(username, PyStr h)])
                 = Some (PyStr h)).
  { rewrite <- (dict_set_absent username (PyStr h) (users s) Hnone).
    apply dict_get_set_same. }
  split.
  - unfold register_user. rewrite Hnone, Hh. cbv zeta.
    rewrite (dict_set_absent username (PyStr h) (users s) Hnone).
    now rewrite Hsave.
  - unfold register_user. cbn [users]. now rewrite Hget.
Qed.

Lemma failed_save_leaves_the_name_registered_witness :
  register_user read_only_fs (lit "alice") (lit "secret") (mk_session [] tt)
  = (inl (mk_exn OtherException (lit "[Errno 13] Permission denied")),
     mk_session [(lit "alice", PyStr (SHA256.hexdigest (lit "secret")))] tt).
Proof.
  apply (proj1 (failed_save_leaves_the_name_registered unit read_only_fs
                  (lit "alice") (lit "secret")
                  (SHA256.hexdigest (lit "secret"))
                  (mk_session [] tt)
                  (mk_exn OtherException (lit "[Errno 13] Permission denied"))
                  tt eq_refl eq_refl eq_refl)).
Defined.

(** X14: [load_users] returns the empty dict, without reading, when the
    file does not exist.  And on a file system that reads back what was
    last written to the file, the dict that a successful [register_user]
    leaves in memory is what [load_users] returns afterwards. *)
Theorem registered_users_are_loaded_back :
  forall (W : Type) (fs : file_system W),
    (forall w w' : W,
        path_exists fs USER_FILE w = (inr false, w') ->
        load_users fs w = (inr (PyDict []), w'))
    /\ ((forall (o : pyobj) (w w' : W),
            write_json fs USER_FILE o w = (inr tt, w') ->
            path_exists fs USER_FILE w' = (inr true, w')
            /\ read_json fs USER_FILE w' = (inr o, w')) ->
        forall (username password : str) (s s' : session W),
          register_user fs username password s = (inr true, s') ->
          load_users fs (disk s') = (inr (PyDict (users s')), disk s')).
Proof.
  intros W fs. split.
  - intros w w' H. unfold load_users, bind. now rewrite H.
  - intros Hfs username password s s' H.
    destruct (register_user_cases W fs username password s)
      as [(x & _ & E) | [(_ & e & _ & E) | (_ & h & r & w & _ & Hsave & E)]];
      rewrite E in H; try discriminate H.
    destruct r as [e | []]; [discriminate H|].
    injection H as <-. cbn [users disk].
    unfold save_users in Hsave.
    destruct (Hfs _ _ _ Hsave) as [Hex Hrd].
    unfold load_users, bind. now rewrite Hex, Hrd.
Qed.

Lemma memory_fs_reads_back (o : pyobj) (w w' : list (str * pyobj)) :
  write_json memory_fs USER_FILE o w = (inr tt, w') ->
  path_exists memory_fs USER_FILE w' = (inr true, w')
  /\ read_json memory_fs USER_FILE w' = (inr o, w').
Proof.
  cbn [write_json path_exists read_json memory_fs].
  intros H. injection H as <-.
  now rewrite dict_get_set_same.
Qed.

Lemma registered_users_are_loaded_back_witness :
  load_users memory_fs
    (disk (snd (register_user memory_fs (lit "alice") (lit "secret")
                  (mk_session [] []))))
  = (inr (PyDict (users (snd (register_user memory_fs (lit "alice")
                                (lit "secret") (mk_session [] []))))),
     disk (snd (register_user memory_fs (lit "alice") (lit "secret")
                  (mk_session [] [])))).
Proof.
  refine (proj2 (registered_users_are_loaded_back _ memory_fs)
            memory_fs_reads_back (lit "alice") (lit "secret")
            (mk_session [] []) _ _).
  by_run.
Defined.

(** ** Line ends and indentation *)

Section LineFacts.

(** One line followed by LF or by CR LF. *)
Lemma splitlines_from_line (sep line cur rest : str) :
  sep = [0x0A%N] \/ sep = [0x0D; 0x0A]%N ->
  single_line line ->
  splitlines_from cur (line ++ sep ++ rest)
  = (rev cur ++ line) :: splitlines_from [] rest.
Proof.
  intros Hsep. unfold single_line. revert cur.
  induction line as [|c r IH]; intros cur H.
  - rewrite app_nil_r. destruct Hsep as [-> | ->]; cbn [app splitlines_from].
    + change (is_linebreak 0x0A%N) with true. cbv iota.
      destruct rest; reflexivity.
    + change (is_linebreak 0x0D%N) with true. cbv iota. reflexivity.
  - cbn [forallb] in H. apply andb_true_iff in H as [Hc Hr].
    apply negb_true_iff in Hc.
    cbn [app splitlines_from]. rewrite Hc, (IH (c :: cur) Hr).
    cbn [rev]. now rewrite <- app_assoc.
Qed.

Lemma splitlines_join_line_end (sep : str) (lines : list str) :
  sep = [0x0A%N] \/ sep = [0x0D; 0x0A]%N ->
  Forall single_line lines ->
  splitlines (join sep lines) = splitlines (join [0x0A%N] lines).
Proof.
  intros Hsep H. induction H as [|x rest Hx _ IH]; [reflexivity|].
  rewrite !join_cons. destruct rest as [|y rest]; [reflexivity|].
  unfold splitlines in *.
  rewrite (splitlines_from_line sep x [] _ Hsep Hx).
  rewrite (splitlines_from_line [0x0A%N] x [] _ (or_introl eq_refl) Hx).
  now rewrite IH.
Qed.

(** The loop reads a line through its trimmed form alone. *)
Lemma scan_same_trimmed (capture : bool) (sql_lines : list str)
      (lines1 lines2 : list str) :
  Forall2 (fun a b => strip a = strip b) lines1 lines2 ->
  scan capture sql_lines lines1 = scan capture sql_lines lines2.
Proof.
  intros H. revert capture sql_lines.
  induction H as [|a b l1 l2 Hab _ IH]; intros capture sql_lines;
    [reflexivity|].
  cbn [scan]. unfold is_trigger. rewrite Hab.
  destruct (startswith SELECT (upper (strip b))
            || startswith WITH (upper (strip b))); [|destruct capture].
  - destruct (endswith SEMICOLON (strip b)); [reflexivity | apply IH].
  - destruct (endswith SEMICOLON (strip b)); [reflexivity | apply IH].
  - apply IH.
Qed.

End LineFacts.

(** X15: line ends do not matter: the same lines joined by CR LF or by LF
    give the same result. *)
Theorem extract_ignores_line_end_style :
  forall lines : list str,
    Forall single_line lines ->
    extract_sql_only (join [0x0D; 0x0A]%N lines)
    = extract_sql_only (join [0x0A%N] lines).
Proof.
  intros lines H. unfold extract_sql_only.
  now rewrite (splitlines_join_line_end [0x0D; 0x0A]%N lines (or_intror eq_refl) H).
Qed.

Lemma extract_ignores_line_end_style_witness :
  extract_sql_only
    (join [0x0D; 0x0A]%N [lit "Sure!"; lit "SELECT name"; lit "FROM user_data;"; lit ""])
  = extract_sql_only
      (join [0x0A%N] [lit "Sure!"; lit "SELECT name"; lit "FROM user_data;"; lit ""]).
Proof.
  apply (extract_ignores_line_end_style
           [lit "Sure!"; lit "SELECT name"; lit "FROM user_data;"; lit ""]).
  repeat (apply Forall_cons; [reflexivity|]); apply Forall_nil.
Defined.

(** X16: indentation and trailing whitespace do not matter: two texts whose
    lines have, one by one, the same trimmed form give the same result. *)
Theorem extract_ignores_indentation :
  forall text1 text2 : str,
    Forall2 (fun a b => strip a = strip b) (splitlines text1) (splitlines text2) ->
    extract_sql_only text1 = extract_sql_only text2.
Proof.
  intros text1 text2 H. unfold extract_sql_only.
  now rewrite (scan_same_trimmed false [] _ _ H).
Qed.

Lemma extract_ignores_indentation_witness :
  extract_sql_only (lit "Here:
    SELECT name  
	FROM user_data ;  
")
  = extract_sql_only (lit "Here:
SELECT name
FROM user_data ;").
Proof.
  apply extract_ignores_indentation.
  assert (E1 : splitlines (lit "Here:
    SELECT name  
	FROM user_data ;  
") = [lit "Here:"; lit "    SELECT name  "; lit "	FROM user_data ;  "])
    by by_run.
  assert (E2 : splitlines (lit "Here:
SELECT name
FROM user_data ;")
               = [lit "Here:"; lit "SELECT name"; lit "FROM user_data ;"])
    by by_run.
  rewrite E1, E2.
  repeat (apply Forall2_cons; [by_run|]); apply Forall2_nil.
Defined.
